(** * A shallow embedding of the Flask gateway in [src/app.py]

    The gateway forwards questions to a remote Gradio service.  The model
    below follows the Python source function by function:

    - Python values that travel through JSON are the inductive [value]; a
      number is the rational it denotes or one of the special floats, a
      string is a sequence of characters;
    - exceptions are the record [exn]; code that may raise lives in the
      state-and-exception monad [M], whose state [World] holds the global
      [gradio_client] object, the list of interactions with the outside
      world ([events]) and the log ([logs]);
    - the remote service, the clock and the [float()] parser are the
      record [Env]: each answer may depend on every interaction so far;
    - runs are sequential: one request at a time, so that the lock of the
      client object does not show.

    The first part holds the model, the vocabulary of the statements and
    sample data; the second part holds the properties. *)

From Stdlib Require Import QArith.
From stdpp Require Import base option list strings gmap.

Set Warnings "-register-all".
Close Scope Q_scope.
Open Scope string_scope.
Open Scope list_scope.

(** ** Python values *)

(** A Python number read from JSON or from [float()]: an [int] or a finite
    [float] is the rational it denotes; [json.loads] also yields the three
    special floats. *)
Inductive num : Type :=
  | Fin (q : Q)
  | PosInf
  | NegInf
  | NaN.

(** [a <= b] on numbers, as IEEE 754 and Python compare them: every
    comparison with [NaN] is false. *)
Definition num_le (a b : num) : bool :=
  match a, b with
  | NaN, _ | _, NaN => false
  | NegInf, _ => true
  | _, PosInf => true
  | Fin x, Fin y => Qle_bool x y
  | PosInf, _ => false
  | Fin _, NegInf => false
  end.

Inductive value : Type :=
  | VNone
  | VBool (b : bool)
  | VNum (n : num)
  | VStr (s : string)
  | VList (l : list value)
  | VDict (d : list (string * value)).

Definition VInt (z : Z) : value := VNum (Fin (inject_Z z)).

(** Truth value of an object, as [if x] and [not x] test it. *)
Definition truthy (v : value) : bool :=
  match v with
  | VNone => false
  | VBool b => b
  | VNum (Fin q) => negb (Qeq_bool q 0)
  | VNum _ => true
  | VStr s => negb (String.eqb s "")
  | VList l => match l with [] => false | _ => true end
  | VDict d => match d with [] => false | _ => true end
  end.

(** [a or b] where [b] is already a value. *)
Definition py_or (a b : value) : value := if truthy a then a else b.

(** The number a value denotes in an ordering comparison with a number;
    [bool] is a subclass of [int].  [None] for the types whose comparison
    with a number raises [TypeError]. *)
Definition num_of (v : value) : option num :=
  match v with
  | VBool true => Some (Fin 1)
  | VBool false => Some (Fin 0)
  | VNum n => Some n
  | _ => None
  end.

Fixpoint assoc (k : string) (d : list (string * value)) : option value :=
  match d with
  | [] => None
  | (k', v) :: d' => if String.eqb k k' then Some v else assoc k d'
  end.

(** ** Exceptions *)

(** [exn_conn] tells whether the exception is an instance of the builtin
    [ConnectionError]; [exn_msg] is [str(e)]; [exn_trace] is the text
    [traceback.format_exc()] gives while the exception is handled.  The
    messages of the exceptions the interpreter itself raises are written
    without the type names they quote. *)
Record exn : Type := Exn {
  exn_conn : bool;
  exn_msg : string;
  exn_trace : string
}.

Definition here : string := "Traceback (most recent call last): app.py".

Definition ConnectionError (msg : string) : exn := Exn true msg here.
Definition TypeError (msg : string) : exn := Exn false msg here.
Definition ValueError (msg : string) : exn := Exn false msg here.
Definition AttributeError (msg : string) : exn := Exn false msg here.
Definition OverflowError (msg : string) : exn := Exn false msg here.

(** ** The world *)

(** A connection handle: the object [Client(url)] returns. *)
Definition handle : Type := nat.

(** Keyword arguments of [client.predict], in the order the source writes
    them. *)
Definition kwargs : Type := list (string * value).

(** Interactions with the outside world, oldest first. *)
Inductive event : Type :=
  | EvClient (url : string) (r : exn + handle)
  | EvPredict (h : handle) (kw : kwargs) (r : exn + value)
  | EvSleep (d : value).

Inductive level : Type := INFO | WARNING | ERROR.

(** A log record: level, message template and the values formatted into
    it. *)
Record log_entry : Type := Log {
  log_level : level;
  log_text : string;
  log_args : list value
}.

(** The fields of a [GradioAPIClient] object; its lock does not show in a
    sequential run. *)
Record GradioAPIClient_obj : Type := MkClient {
  api_url : string;
  client : option handle;
  last_connected : option string
}.

Record World : Type := MkWorld {
  gradio_client : option GradioAPIClient_obj;
  events : list event;
  logs : list log_entry
}.

(** The environment.  [env_Client] and [env_predict] answer the calls
    [Client(url)] and [client.predict] with keyword arguments [kw];
    [env_now] is [datetime.now().isoformat()]; [env_float] is [float(s)] on
    a string
    ([None]: [ValueError]); [env_sleep_overflow q] tells whether the
    duration [q], in seconds, is out of the range of the platform's
    timestamp, so that [time.sleep] raises [OverflowError].  Each answer of
    the backend and of the clock may depend on all the events so far. *)
Record Env : Type := MkEnv {
  env_Client : list event -> string -> exn + handle;
  env_predict : list event -> handle -> kwargs -> exn + value;
  env_now : list event -> string;
  env_float : string -> option num;
  env_sleep_overflow : Q -> bool
}.

(** Process-wide configuration, read once from the environment variables. *)
Record ServiceConfig : Type := MkConfig {
  API_URL : string;
  DEFAULT_MAX_LENGTH : num;
  DEFAULT_TEMPERATURE : num;
  DEFAULT_TOP_P : num;
  API_KEY : option string
}.

(** ** The monad of statements *)

Definition M (A : Type) : Type := World -> (exn + A) * World.

Definition ret {A} (a : A) : M A := fun w => (inr a, w).

Definition raise {A} (e : exn) : M A := fun w => (inl e, w).

Definition bind {A B} (m : M A) (k : A -> M B) : M B :=
  fun w =>
    match m w with
    | (inl e, w') => (inl e, w')
    | (inr a, w') => k a w'
    end.

(** [try: m  except Exception as e: h e] *)
Definition try_except {A} (m : M A) (h : exn -> M A) : M A :=
  fun w =>
    match m w with
    | (inl e, w') => h e w'
    | (inr a, w') => (inr a, w')
    end.

Notation "'let*' x ':=' m 'in' k" := (bind m (fun x => k))
  (at level 10, x name, m at level 100, k at level 200).
Notation "m ';;' k" := (bind m (fun _ => k))
  (at level 100, k at level 200, right associativity).

Definition lift {A} (r : exn + A) : M A :=
  match r with inl e => raise e | inr a => ret a end.

Definition get_events : M (list event) := fun w => (inr (events w), w).

Definition emit (ev : event) : M unit :=
  fun w => (inr tt, MkWorld (gradio_client w) (events w ++ [ev]) (logs w)).

Definition logger (lv : level) (text : string) (args : list value) : M unit :=
  fun w => (inr tt, MkWorld (gradio_client w) (events w) (logs w ++ [Log lv text args])).

Definition get_gradio_client : M (option GradioAPIClient_obj) :=
  fun w => (inr (gradio_client w), w).

(** [self], inside a method called on the global [gradio_client]. *)
Definition get_self : M GradioAPIClient_obj :=
  fun w =>
    match gradio_client w with
    | Some self => (inr self, w)
    | None => (inl (AttributeError "'NoneType' object has no attribute"), w)
    end.

Definition set_self (self : GradioAPIClient_obj) : M unit :=
  fun w => (inr tt, MkWorld (Some self) (events w) (logs w)).

(** [time.sleep(d)].  The duration is first converted to the platform's
    timestamp, which raises for what is not a number, for NaN and for a
    duration out of the timestamp's range; then a negative duration is
    refused.  A [bool] (an [int]) or a finite non-negative number within
    range suspends the worker; in every other case nothing is suspended. *)
Definition sleep (env : Env) (d : value) : M unit :=
  match d with
  | VBool _ => emit (EvSleep d)
  | VNum (Fin q) =>
      if env_sleep_overflow env q then
        raise (OverflowError "timestamp too large to convert to C _PyTime_t")
      else if negb (Qle_bool 0 q) then
        raise (ValueError "sleep length must be non-negative")
      else emit (EvSleep d)
  | VNum NaN => raise (ValueError "Invalid value NaN (not a number)")
  | VNum _ => raise (OverflowError "timestamp too large to convert to C _PyTime_t")
  | _ => raise (TypeError "object cannot be interpreted as an integer")
  end.

(** [datetime.now().isoformat()] *)
Definition now (env : Env) : M string :=
  fun w => (inr (env_now env (events w)), w).

(** [v[:50]], which the log line of [generate_response] evaluates. *)
Definition slice50 (v : value) : exn + value :=
  match v with
  | VStr s => inr (VStr (String.substring 0 50 s))
  | VList l => inr (VList (take 50 l))
  | _ => inl (TypeError "object is not subscriptable")
  end.

(** ** class GradioAPIClient *)

Module GradioAPIClient.
Section Methods.

Variable env : Env.

(** [_connect]: one call of [Client(self.api_url)]; never raises. *)
Definition _connect : M bool :=
  let* self := get_self in
  let* tr := get_events in
  match env_Client env tr (api_url self) with
  | inr h =>
      emit (EvClient (api_url self) (inr h));;
      let* t := now env in
      set_self (MkClient (api_url self) (Some h) (Some t));;
      logger INFO "Successfully connected to API: {}" [VStr (api_url self)];;
      ret true
  | inl e =>
      emit (EvClient (api_url self) (inl e));;
      logger ERROR "Failed to connect to API: {}" [VStr (exn_msg e)];;
      set_self (MkClient (api_url self) None (last_connected self));;
      ret false
  end.

(** [__init__] *)
Definition __init__ (url : string) : M unit :=
  set_self (MkClient url None None);;
  _connect;;
  ret tt.

Definition _ensure_connection : M unit :=
  let* self := get_self in
  match client self with
  | None =>
      let* ok := _connect in
      if negb ok then raise (ConnectionError "Unable to connect to Gradio API")
      else ret tt
  | Some _ => ret tt
  end.

(** [self.client.predict], called with keyword arguments [kw]: the remote
    call. *)
Definition predict (kw : kwargs) : M value :=
  let* self := get_self in
  match client self with
  | None => raise (AttributeError "'NoneType' object has no attribute 'predict'")
  | Some h =>
      let* tr := get_events in
      let r := env_predict env tr h kw in
      emit (EvPredict h kw r);;
      lift r
  end.

Definition generate_kwargs
    (user_input max_length temperature top_p endpoint : value) : kwargs :=
  [("user_input", user_input); ("max_length", max_length);
   ("temperature", temperature); ("top_p", top_p); ("api_name", endpoint)].

Definition generate_response
    (user_input max_length temperature top_p endpoint : value) : M value :=
  _ensure_connection;;
  try_except
    (let* head := lift (slice50 user_input) in
     logger INFO "Generating response for input: {}..." [head];;
     let* result :=
       predict (generate_kwargs user_input max_length temperature top_p endpoint) in
     logger INFO "Response generated successfully" [];;
     ret result)
    (fun e =>
       logger ERROR "Error generating response: {}" [VStr (exn_msg e)];;
       let* ok := _connect in
       if ok then
         try_except
           (let* result :=
              predict (generate_kwargs user_input max_length temperature top_p endpoint) in
            ret result)
           (fun retry_error =>
              logger ERROR "Retry failed: {}" [VStr (exn_msg retry_error)];;
              raise retry_error)
       else raise e).

Definition get_lambda_data : M value :=
  _ensure_connection;;
  try_except
    (logger INFO "Fetching lambda data..." [];;
     let* result := predict [("api_name", VStr "/lambda")] in
     logger INFO "Lambda data fetched successfully" [];;
     ret result)
    (fun e =>
       logger ERROR "Error fetching lambda data: {}" [VStr (exn_msg e)];;
       raise e).

End Methods.
End GradioAPIClient.

(** ** Requests and responses *)

(** What a view reads of [flask.request]: the headers and the query
    arguments (first value of each name), and what [request.get_json()]
    does: it raises, or returns the parsed body. *)
Record Request : Type := MkRequest {
  headers : gmap string string;
  args : gmap string string;
  json : exn + value
}.

(** A JSON response: the object given to [jsonify] and the status code. *)
Record Response : Type := MkResponse {
  body : list (string * value);
  status_code : nat
}.

Definition jsonify (d : list (string * value)) (code : nat) : Response :=
  MkResponse d code.

(** [d.get(k, default)]; an object that is not a [dict] has no [get]. *)
Definition dict_get (data : value) (k : string) (default : value) : M value :=
  match data with
  | VDict d => ret (match assoc k d with Some v => v | None => default end)
  | _ => raise (AttributeError "object has no attribute 'get'")
  end.

(** Truth value of the result of [os.getenv] or of a [get] on headers or
    query arguments: [None] and the empty string are false. *)
Definition str_truthy (o : option string) : bool :=
  match o with
  | Some s => negb (String.eqb s "")
  | None => false
  end.

(** [not (lo <= v <= hi)] followed by the assignment of the default. *)
Definition validate (lo hi : num) (default : num) (v : value) : M value :=
  match num_of v with
  | None => raise (TypeError "'<=' not supported between instances")
  | Some n => ret (if negb (num_le lo n && num_le n hi) then VNum default else v)
  end.

(** [question, response = result] *)
Definition unpack2 (v : value) : exn + value * value :=
  match v with
  | VList [a; b] => inr (a, b)
  | VStr (String a (String b EmptyString)) =>
      inr (VStr (String a EmptyString), VStr (String b EmptyString))
  | VDict [(a, _); (b, _)] => inr (VStr a, VStr b)
  | VList _ | VStr _ | VDict _ => inl (ValueError "wrong number of values to unpack")
  | _ => inl (TypeError "cannot unpack non-iterable object")
  end.

(** Truth value of the global [gradio_client]: an object, or [None]. *)
Definition initialized (gc : option GradioAPIClient_obj) : bool :=
  match gc with Some _ => true | None => false end.

Definition is_list (v : value) : bool :=
  match v with VList _ => true | _ => false end.

Definition elements_of (v : value) : list value :=
  match v with VList l => l | _ => [] end.

Definition opt_value (o : option string) : value :=
  match o with Some s => VStr s | None => VNone end.

Definition not_initialized : Response :=
  jsonify [("error", VStr "Gradio client not initialized");
           ("status", VStr "service_unavailable")] 503.

Definition no_json : Response :=
  jsonify [("error", VStr "No JSON data provided");
           ("status", VStr "bad_request")] 400.

Definition unauthorized : Response :=
  jsonify [("error", VStr "Invalid or missing API key");
           ("status", VStr "unauthorized")] 401.

Definition item_success (i : nat) (question response : value) : value :=
  VDict [("index", VInt (Z.of_nat i)); ("question", question);
         ("response", response); ("status", VStr "success")].

Definition item_error (i : nat) (question : value) (e : exn) : value :=
  VDict [("index", VInt (Z.of_nat i)); ("question", question);
         ("response", VNone); ("error", VStr (exn_msg e));
         ("status", VStr "error")].

(** ** The decorators and the views *)

Section Views.

Variable cfg : ServiceConfig.
Variable env : Env.

(** [request.headers.get('X-API-Key') or request.args.get('api_key')] *)
Definition provided_key (req : Request) : option string :=
  if str_truthy (headers req !! "X-API-Key") then headers req !! "X-API-Key"
  else args req !! "api_key".

Definition require_api_key (f : Request -> M Response) (req : Request)
    : M Response :=
  if str_truthy (API_KEY cfg) then
    if negb (str_truthy (provided_key req))
       || negb (bool_decide (provided_key req = API_KEY cfg))
    then ret unauthorized
    else f req
  else f req.

Definition handle_errors (f : Request -> M Response) (req : Request)
    : M Response :=
  try_except (f req)
    (fun e =>
       if exn_conn e then
         logger ERROR "Connection error: {}" [VStr (exn_msg e)];;
         ret (jsonify [("error", VStr "Unable to connect to the AI service");
                       ("status", VStr "connection_error");
                       ("message", VStr (exn_msg e))] 503)
       else
         logger ERROR "Unexpected error: {}" [VStr (exn_msg e)];;
         logger ERROR "{}" [VStr (exn_trace e)];;
         ret (jsonify [("error", VStr "Internal server error");
                       ("status", VStr "error");
                       ("message", VStr (exn_msg e))] 500)).

Definition health_check (req : Request) : M Response :=
  let* r :=
    try_except
      (let* gc := get_gradio_client in
       match gc with
       | Some (MkClient url (Some _) _) =>
           let* tr := get_events in
           match env_Client env tr url with
           | inr h =>
               emit (EvClient url (inr h));;
               ret ("healthy", 200, "API connection successful")
           | inl e =>
               emit (EvClient url (inl e));;
               logger WARNING "Health check failed: {}" [VStr (exn_msg e)];;
               ret ("unhealthy", 503, String.append "API connection failed: " (exn_msg e))
           end
       | _ => ret ("unhealthy", 503, "Gradio client not initialized")
       end)
      (fun e =>
         logger ERROR "Health check error: {}" [VStr (exn_msg e)];;
         ret ("error", 500, String.append "Health check error: " (exn_msg e))) in
  let '(status, code, message) := r in
  let* gc := get_gradio_client in
  let* t := now env in
  ret (jsonify [("status", VStr status);
                ("message", VStr message);
                ("api_url", VStr (API_URL cfg));
                ("last_connected",
                  match gc with
                  | Some self => opt_value (last_connected self)
                  | None => VNone
                  end);
                ("timestamp", VStr t)] code).

(** [data.get('user_input') or data.get('question')] *)
Definition get_user_input (data : value) : M value :=
  let* a := dict_get data "user_input" VNone in
  if truthy a then ret a else dict_get data "question" VNone.

Definition generate_response (req : Request) : M Response :=
  let* gc := get_gradio_client in
  if negb (initialized gc) then ret not_initialized else
  let* data := lift (json req) in
  if negb (truthy data) then ret no_json else
  let* user_input := get_user_input data in
  if negb (truthy user_input) then
    ret (jsonify [("error", VStr "user_input or question is required");
                  ("status", VStr "bad_request")] 400)
  else
  let* max_length := dict_get data "max_length" (VNum (DEFAULT_MAX_LENGTH cfg)) in
  let* temperature := dict_get data "temperature" (VNum (DEFAULT_TEMPERATURE cfg)) in
  let* top_p := dict_get data "top_p" (VNum (DEFAULT_TOP_P cfg)) in
  let* endpoint := dict_get data "endpoint" (VStr "/generate_response") in
  let* max_length := validate (Fin 1) (Fin 2048) (DEFAULT_MAX_LENGTH cfg) max_length in
  let* temperature := validate (Fin 0) (Fin 2) (DEFAULT_TEMPERATURE cfg) temperature in
  let* top_p := validate (Fin 0) (Fin 1) (DEFAULT_TOP_P cfg) top_p in
  let* response :=
    GradioAPIClient.generate_response env
      user_input max_length temperature top_p endpoint in
  let* t := now env in
  ret (jsonify [("status", VStr "success");
                ("user_input", user_input);
                ("response", response);
                ("parameters",
                  VDict [("max_length", max_length);
                         ("temperature", temperature);
                         ("top_p", top_p);
                         ("endpoint", endpoint)]);
                ("timestamp", VStr t)] 200).

(** [float(request.args.get(k, default))] *)
Definition float_arg (req : Request) (k : string) (default : num) : M value :=
  match args req !! k with
  | None => ret (VNum default)
  | Some s =>
      match env_float env s with
      | Some n => ret (VNum n)
      | None => raise (ValueError "could not convert string to float")
      end
  end.

(** [request.args.get('question') or request.args.get('q')] *)
Definition get_question (req : Request) : option string :=
  if str_truthy (args req !! "question") then args req !! "question"
  else args req !! "q".

Definition ask_question (req : Request) : M Response :=
  let* gc := get_gradio_client in
  if negb (initialized gc) then ret not_initialized else
  let question := get_question req in
  if negb (str_truthy question) then
    ret (jsonify [("error", VStr "question parameter is required");
                  ("status", VStr "bad_request")] 400)
  else
  let* max_length := float_arg req "max_length" (DEFAULT_MAX_LENGTH cfg) in
  let* temperature := float_arg req "temperature" (DEFAULT_TEMPERATURE cfg) in
  let* top_p := float_arg req "top_p" (DEFAULT_TOP_P cfg) in
  let* response :=
    GradioAPIClient.generate_response env
      (opt_value question) max_length temperature top_p
      (VStr "/generate_response") in
  let* t := now env in
  ret (jsonify [("status", VStr "success");
                ("question", opt_value question);
                ("response", response);
                ("timestamp", VStr t)] 200).

Definition compare_endpoints (req : Request) : M Response :=
  let* gc := get_gradio_client in
  if negb (initialized gc) then ret not_initialized else
  let* data := lift (json req) in
  if negb (truthy data) then ret no_json else
  let* user_input := get_user_input data in
  if negb (truthy user_input) then
    ret (jsonify [("error", VStr "user_input or question is required");
                  ("status", VStr "bad_request")] 400)
  else
  let* max_length := dict_get data "max_length" (VNum (DEFAULT_MAX_LENGTH cfg)) in
  let* temperature := dict_get data "temperature" (VNum (DEFAULT_TEMPERATURE cfg)) in
  let* top_p := dict_get data "top_p" (VNum (DEFAULT_TOP_P cfg)) in
  let* response1 :=
    GradioAPIClient.generate_response env
      user_input max_length temperature top_p (VStr "/generate_response") in
  emit (EvSleep (VNum (Fin (1 # 2))));;
  let* response2 :=
    GradioAPIClient.generate_response env
      user_input max_length temperature top_p (VStr "/generate_response_1") in
  let* t := now env in
  ret (jsonify [("status", VStr "success");
                ("user_input", user_input);
                ("responses",
                  VDict [("endpoint_1", response1); ("endpoint_2", response2)]);
                ("parameters",
                  VDict [("max_length", max_length);
                         ("temperature", temperature);
                         ("top_p", top_p)]);
                ("timestamp", VStr t)] 200).

Definition get_sample_data (req : Request) : M Response :=
  let* gc := get_gradio_client in
  if negb (initialized gc) then ret not_initialized else
  let* result := GradioAPIClient.get_lambda_data env in
  let* qr := lift (unpack2 result) in
  let* t := now env in
  ret (jsonify [("status", VStr "success");
                ("sample_question", fst qr);
                ("sample_response", snd qr);
                ("timestamp", VStr t)] 200).

(** One turn of the loop of [batch_generate], for the item [question] at
    position [i] of [n].  The [try] block appends the success item
    before it sleeps, and [results] is a list mutated in place: when
    [time.sleep] raises, the handler appends to the list that already
    holds the success item. *)
Definition batch_item
    (max_length temperature top_p delay : value)
    (n i : nat) (question : value) (results : list value)
    : M (list value) :=
  let handler (results : list value) (e : exn) : M (list value) :=
    logger ERROR "Error processing question {}: {}"
      [VInt (Z.of_nat (i + 1)); VStr (exn_msg e)];;
    ret (results ++ [item_error i question e]) in
  try_except
    (let* response :=
       GradioAPIClient.generate_response env
         question max_length temperature top_p (VStr "/generate_response") in
     let results := results ++ [item_success i question response] in
     if (i <? n - 1)%nat then
       try_except (sleep env delay;; ret results) (handler results)
     else ret results)
    (handler results).

(** [for i, question in enumerate(questions)], from position [i] on. *)
Fixpoint batch_loop
    (max_length temperature top_p delay : value)
    (n i : nat) (questions : list value) (results : list value)
    : M (list value) :=
  match questions with
  | [] => ret results
  | question :: rest =>
      let* results :=
        batch_item max_length temperature top_p delay n i question results in
      batch_loop max_length temperature top_p delay n (S i) rest results
  end.

Definition batch_generate (req : Request) : M Response :=
  let* gc := get_gradio_client in
  if negb (initialized gc) then ret not_initialized else
  let* data := lift (json req) in
  if negb (truthy data) then ret no_json else
  let* questions := dict_get data "questions" (VList []) in
  if negb (truthy questions) || negb (is_list questions) then
    ret (jsonify [("error", VStr "questions array is required");
                  ("status", VStr "bad_request")] 400)
  else
  let qs := elements_of questions in
  if (10 <? length qs)%nat then
    ret (jsonify [("error", VStr "Maximum 10 questions allowed per batch");
                  ("status", VStr "bad_request")] 400)
  else
  let* max_length := dict_get data "max_length" (VNum (DEFAULT_MAX_LENGTH cfg)) in
  let* temperature := dict_get data "temperature" (VNum (DEFAULT_TEMPERATURE cfg)) in
  let* top_p := dict_get data "top_p" (VNum (DEFAULT_TOP_P cfg)) in
  let* delay := dict_get data "delay" (VNum (Fin 1)) in
  let* results :=
    batch_loop max_length temperature top_p delay (length qs) 0 qs [] in
  let* t := now env in
  ret (jsonify [("status", VStr "completed");
                ("total_questions", VInt (Z.of_nat (length qs)));
                ("results", VList results);
                ("parameters",
                  VDict [("max_length", max_length);
                         ("temperature", temperature);
                         ("top_p", top_p);
                         ("delay", delay)]);
                ("timestamp", VStr t)] 200).

(** The routes that forward to the backend, with their decorators. *)
Inductive route : Type := Generate | Ask | Compare | Sample | Batch.

Definition view (r : route) : Request -> M Response :=
  match r with
  | Generate => generate_response
  | Ask => ask_question
  | Compare => compare_endpoints
  | Sample => get_sample_data
  | Batch => batch_generate
  end.

Definition protected (r : route) : Request -> M Response :=
  require_api_key (handle_errors (view r)).

End Views.

(** ** Start-up *)

Definition set_gradio_client (gc : option GradioAPIClient_obj) : M unit :=
  fun w => (inr tt, MkWorld gc (events w) (logs w)).

(** The module-level initialisation: the client object is built, which
    connects once; were the constructor to raise, the global would be
    [None]. *)
Definition startup (cfg : ServiceConfig) (env : Env) : M unit :=
  logger INFO "Initializing with API URL: {}" [VStr (API_URL cfg)];;
  try_except
    (GradioAPIClient.__init__ env (API_URL cfg);;
     logger INFO "Gradio client initialized successfully!" [])
    (fun e =>
       logger ERROR "Failed to initialize Gradio client: {}" [VStr (exn_msg e)];;
       set_gradio_client None).

(** ** Vocabulary of the statements *)

Definition is_predict (ev : event) : bool :=
  match ev with EvPredict _ _ _ => true | _ => false end.

Definition is_client (ev : event) : bool :=
  match ev with EvClient _ _ => true | _ => false end.

Definition is_sleep (ev : event) : bool :=
  match ev with EvSleep _ => true | _ => false end.

Definition nb_predicts (tr : list event) : nat :=
  length (List.filter is_predict tr).

Definition nb_clients (tr : list event) : nat :=
  length (List.filter is_client tr).

(** The handle a session holds after the events [new], having held [h0]
    before them: a call of [Client] sets it, or clears it when it fails,
    and nothing else touches it. *)
Fixpoint handle_after (h0 : option handle) (new : list event) : option handle :=
  match new with
  | [] => h0
  | EvClient _ (inr h) :: new' => handle_after (Some h) new'
  | EvClient _ (inl _) :: new' => handle_after None new'
  | _ :: new' => handle_after h0 new'
  end.

(** What one call of [GradioAPIClient.generate_response] may do: the
    events a call adds to the world and the result it gives, by case:
    these predicates state the retry policy. *)

Section Invoke.

Variable url : string.
Variable user_input : value.
Variable kw : kwargs.

(** The first attempt on the handle [h] failed with [e]: the remote call
    was issued and raised [e]; or the log line before it raised [e], the
    input having no slice, and no remote call was issued. *)
Inductive first_failure (h : handle) : list event -> exn -> Prop :=
  | ff_remote e :
      first_failure h [EvPredict h kw (inl e)] e
  | ff_local e :
      slice50 user_input = inl e ->
      first_failure h [] e.

(** With a handle [h] at hand: the first remote call succeeds; or the
    first attempt fails and one connection attempt follows, which fails
    (the first failure is the result) or succeeds and is followed by one
    more remote call, whose outcome is the result. *)
Inductive attempt_outcome (h : handle) : list event -> exn + value -> Prop :=
  | ao_first v :
      attempt_outcome h [EvPredict h kw (inr v)] (inr v)
  | ao_reconnect_failed first e e' :
      first_failure h first e ->
      attempt_outcome h (first ++ [EvClient url (inl e')]) (inl e)
  | ao_retried first e h' r :
      first_failure h first e ->
      attempt_outcome h (first ++ [EvClient url (inr h'); EvPredict h' kw r]) r.

(** The whole call, from a session whose handle is [None] or [Some h]. *)
Inductive invoke_outcome : option handle -> list event -> exn + value -> Prop :=
  | io_unavailable e :
      invoke_outcome None [EvClient url (inl e)]
        (inl (ConnectionError "Unable to connect to Gradio API"))
  | io_connected h new r :
      attempt_outcome h new r ->
      invoke_outcome None (EvClient url (inr h) :: new) r
  | io_ready h new r :
      attempt_outcome h new r ->
      invoke_outcome (Some h) new r.

End Invoke.

(** The session of a world is still the client object made for [url]. *)
Definition same_session (url : string) (w : World) : Prop :=
  exists self, gradio_client w = Some self /\ api_url self = url.

(** Two requests that differ at most in the [X-API-Key] header and in the
    [api_key] query argument. *)
Definition same_but_key (req1 req2 : Request) : Prop :=
  json req1 = json req2 /\
  (forall k, k <> "api_key" -> args req1 !! k = args req2 !! k) /\
  (forall k, k <> "X-API-Key" -> headers req1 !! k = headers req2 !! k).

(** The closed range [[lo, hi]], read on the number a value denotes: no
    special float and no value that is not a number lies in it. *)
Definition in_range (lo hi : Q) (v : value) : Prop :=
  match num_of v with
  | Some (Fin q) => (lo <= q)%Q /\ (q <= hi)%Q
  | _ => False
  end.

(** The value a JSON body gives for a field, or the default. *)
Definition given (d : list (string * value)) (k : string) (default : value) : value :=
  match assoc k d with Some v => v | None => default end.

(** The durations [time.sleep] accepts. *)
Definition sleep_accepts (env : Env) (d : value) : bool :=
  match d with
  | VBool _ => true
  | VNum (Fin q) => Qle_bool 0 q && negb (env_sleep_overflow env q)
  | _ => false
  end.

(** A response that is not a 200 names its error and its status. *)
Definition error_shaped (resp : Response) : Prop :=
  status_code resp <> 200 ->
  is_Some (assoc "error" (body resp)) /\ is_Some (assoc "status" (body resp)).

(** Every response a computation returns is [error_shaped]. *)
Definition all_error_shaped (m : M Response) : Prop :=
  forall w resp w', m w = (inr resp, w') -> error_shaped resp.

(** The body the error wrapper builds from an exception. *)
Definition error_body (e : exn) : Response :=
  if exn_conn e then
    jsonify [("error", VStr "Unable to connect to the AI service");
             ("status", VStr "connection_error");
             ("message", VStr (exn_msg e))] 503
  else
    jsonify [("error", VStr "Internal server error");
             ("status", VStr "error");
             ("message", VStr (exn_msg e))] 500.

(** What the loop of [batch_generate] does when [time.sleep] accepts the
    delay.  [batch_run i qs tr items]: from position [i] on, the questions [qs]
    give the events [tr] and the result items [items].  Each question
    gets one call of the session manager and one item; a pause follows a
    success that is not at the last position [n - 1], and nothing follows
    a failure. *)

Section BatchRun.

Variable url : string.
Variables ml t tp delay : value.
Variable n : nat.

Definition batch_kwargs (q : value) : kwargs :=
  GradioAPIClient.generate_kwargs q ml t tp (VStr "/generate_response").

Definition pause_after (i : nat) : list event :=
  if (i <? n - 1)%nat then [EvSleep delay] else [].

Inductive batch_run : nat -> list value -> list event -> list value -> Prop :=
  | br_done i :
      batch_run i [] [] []
  | br_success i q qs oh new v tr items :
      invoke_outcome url q (batch_kwargs q) oh new (inr v) ->
      batch_run (S i) qs tr items ->
      batch_run i (q :: qs) (new ++ pause_after i ++ tr)
        (item_success i q v :: items)
  | br_failure i q qs oh new e tr items :
      invoke_outcome url q (batch_kwargs q) oh new (inl e) ->
      batch_run (S i) qs tr items ->
      batch_run i (q :: qs) (new ++ tr) (item_error i q e :: items).

End BatchRun.


(** The invariant of the session: the global client object exists, it is
    the one built for [url], and when it holds a handle it also holds the
    time of the connection. *)
Definition session_ok (url : string) (w : World) : Prop :=
  exists self,
    gradio_client w = Some self /\
    api_url self = url /\
    (is_Some (client self) -> is_Some (last_connected self)).

(** A computation keeps the invariant, whether it returns or raises. *)
Definition keeps {A} (url : string) (m : M A) : Prop :=
  forall w, session_ok url w -> session_ok url (snd (m w)).

(** The worlds the service can be in: after start-up, and after each
    request served, one at a time, by a key-protected route or by the
    health endpoint. *)
Inductive reachable (cfg : ServiceConfig) (env : Env) : World -> Prop :=
  | reach_startup w0 :
      reachable cfg env (snd (startup cfg env w0))
  | reach_protected w r req :
      reachable cfg env w ->
      reachable cfg env (snd (protected cfg env r req w))
  | reach_health w req :
      reachable cfg env w ->
      reachable cfg env (snd (health_check cfg env req w)).

Definition nb_sleeps (tr : list event) : nat :=
  length (List.filter is_sleep tr).

(** The routes that read a JSON body. *)
Definition reads_json (r : route) : bool :=
  match r with Generate | Compare | Batch => true | Ask | Sample => false end.

(** What [request.get_json()] followed by the first [data.get] makes of a
    request body that is not a non-empty JSON object: the exception of
    [get_json], the 400 for a false body, the [AttributeError] for a body
    without [get]; [None] for a non-empty object. *)
Definition body_rejection (j : exn + value) : option Response :=
  match j with
  | inl e => Some (error_body e)
  | inr (VDict (_ :: _)) => None
  | inr data =>
      if truthy data
      then Some (error_body (AttributeError "object has no attribute 'get'"))
      else Some no_json
  end.

(** Same world, the log apart. *)
Definition same_but_logs (w w' : World) : Prop :=
  gradio_client w' = gradio_client w /\ events w' = events w.

Definition input_required : Response :=
  jsonify [("error", VStr "user_input or question is required");
           ("status", VStr "bad_request")] 400.

Definition question_required : Response :=
  jsonify [("error", VStr "question parameter is required");
           ("status", VStr "bad_request")] 400.

Definition questions_required : Response :=
  jsonify [("error", VStr "questions array is required");
           ("status", VStr "bad_request")] 400.

(** The value [float(request.args.get(k, default))] when it does not
    raise. *)
Definition float_of_arg (env : Env) (req : Request) (k : string) (default : num)
    : option num :=
  match args req !! k with
  | None => Some default
  | Some s => env_float env s
  end.

(** The items of a batch none of whose questions could reach the
    backend. *)
Fixpoint unavailable_items (i : nat) (qs : list value) : list value :=
  match qs with
  | [] => []
  | q :: qs' =>
      item_error i q (ConnectionError "Unable to connect to Gradio API")
        :: unavailable_items (S i) qs'
  end.

(** A connection attempt to [url] that failed. *)
Definition failed_connect (url : string) (ev : event) : Prop :=
  exists e, ev = EvClient url (inl e).

(** ** Sample configurations, environments and requests *)

Definition sample_url : string := "https://backend.example/".

Definition cfg_open : ServiceConfig :=
  MkConfig sample_url (Fin 512) (Fin (7 # 10)) (Fin (9 # 10)) None.

Definition cfg_key : ServiceConfig :=
  MkConfig sample_url (Fin 512) (Fin (7 # 10)) (Fin (9 # 10)) (Some "s3cret").

(** [float(s)] on a string of decimal digits. *)
Fixpoint digits_value (acc : Z) (s : string) : option Z :=
  match s with
  | EmptyString => Some acc
  | String c s' =>
      let n := Z.of_nat (Ascii.nat_of_ascii c) in
      if (48 <=? n)%Z && (n <=? 57)%Z
      then digits_value (10 * acc + (n - 48))%Z s'
      else None
  end.

Definition float_of_digits (s : string) : option num :=
  match s with
  | EmptyString => None
  | _ => match digits_value 0 s with
         | Some z => Some (Fin (inject_Z z))
         | None => None
         end
  end.

Definition backend_error : exn :=
  Exn false "upstream request failed" "Traceback (most recent call last): httpx".

(** A backend that is up: every connection and every call succeeds. *)
Definition env_up : Env :=
  MkEnv (fun tr _ => inr (length tr))
        (fun _ _ _ => inr (VStr "answer"))
        (fun tr => "2024-01-01T00:00:00")
        float_of_digits
        (fun _ => false).

(** A backend that is down: no connection can be made. *)
Definition env_down : Env :=
  MkEnv (fun _ _ => inl backend_error)
        (fun _ _ _ => inl backend_error)
        (fun tr => "2024-01-01T00:00:00")
        float_of_digits
        (fun _ => false).

(** A backend that has just restarted: the first remote call fails, every
    later one succeeds. *)
Definition env_restarted : Env :=
  MkEnv (fun tr _ => inr (length tr))
        (fun tr _ _ =>
           if (nb_predicts tr =? 0)%nat then inl backend_error
           else inr (VStr "answer"))
        (fun tr => "2024-01-01T00:00:00")
        float_of_digits
        (fun _ => false).

(** A backend that fails on the question ["bad"] and answers every other. *)
Definition env_picky : Env :=
  MkEnv (fun tr _ => inr (length tr))
        (fun _ _ kw =>
           match assoc "user_input" kw with
           | Some (VStr "bad") => inl backend_error
           | _ => inr (VStr "answer")
           end)
        (fun tr => "2024-01-01T00:00:00")
        float_of_digits
        (fun _ => false).

Definition sample_client (h : option handle) : GradioAPIClient_obj :=
  MkClient sample_url h (option_map (fun _ => "2023-12-31T23:59:59") h).

(** The process after start-up, with and without a connection handle. *)
Definition w_connected : World := MkWorld (Some (sample_client (Some 0))) [] [].
Definition w_disconnected : World := MkWorld (Some (sample_client None)) [] [].

Definition http_post (data : list (string * value)) : Request :=
  MkRequest ∅ ∅ (inr (VDict data)).

Definition http_get (query : list (string * string)) : Request :=
  MkRequest ∅ (list_to_map query) (inr VNone).

Definition ten_questions : list value :=
  [VStr "q0"; VStr "q1"; VStr "q2"; VStr "q3"; VStr "q4";
   VStr "q5"; VStr "q6"; VStr "q7"; VStr "q8"; VStr "q9"].

Definition req_wrong_key : Request :=
  MkRequest (<["X-API-Key" := "guess"]> ∅) (<["api_key" := "s3cret"]> ∅)
    (inr (VDict [("user_input", VStr "hi")])).

Definition req_no_key : Request :=
  MkRequest ∅ (<["question" := "hi"]> ∅) (inr VNone).

Definition req_some_key : Request :=
  MkRequest (<["X-API-Key" := "guess"]> ∅)
    (<["question" := "hi"]> (<["api_key" := "other"]> ∅)) (inr VNone).

(** A body whose [max_length] is too large, whose [temperature] is in
    range and whose [top_p] is not a number at all. *)
Definition body_out_of_range : list (string * value) :=
  [("user_input", VStr "hi"); ("max_length", VInt 3000);
   ("temperature", VNum (Fin (1 # 2))); ("top_p", VNum NaN)].

(** Sample requests for the batch, compare and ask routes. *)
Definition batch_negative_delay : Request :=
  http_post [("questions", VList [VStr "a"; VStr "b"]); ("delay", VInt (-1))].

Definition batch_bad_first : Request :=
  http_post [("questions", VList [VStr "bad"; VStr "b"])].

Definition compare_3000 : Request :=
  http_post [("user_input", VStr "hi"); ("max_length", VInt 3000)].

Definition batch_3000 : Request :=
  http_post [("questions", VList [VStr "hi"]); ("max_length", VInt 3000)].

Definition ask_3000 : Request :=
  http_get [("question", "hi"); ("max_length", "3000")].

Definition kwargs_3000 (endpoint : string) : kwargs :=
  GradioAPIClient.generate_kwargs (VStr "hi") (VInt 3000)
    (VNum (Fin (7 # 10))) (VNum (Fin (9 # 10))) (VStr endpoint).

Definition kwargs_default (question : string) : kwargs :=
  GradioAPIClient.generate_kwargs (VStr question) (VNum (Fin 512))
    (VNum (Fin (7 # 10))) (VNum (Fin (9 # 10))) (VStr "/generate_response").

(** A batch of three questions, the second of which the backend refuses. *)
Definition three_questions : list value := [VStr "a"; VStr "bad"; VStr "c"].

Definition batch_of_three : Request :=
  http_post [("questions", VList three_questions)].

(** The process before start-up. *)
Definition w_blank : World := MkWorld None [] [].

Definition req_header_wins : Request :=
  MkRequest (<["X-API-Key" := "guess"]> ∅) (<["api_key" := "s3cret"]> ∅)
    (inr VNone).

Definition body_not_a_number : list (string * value) :=
  [("user_input", VStr "hi"); ("max_length", VStr "3000")].

Definition ask_not_a_number : Request :=
  http_get [("question", "hi"); ("max_length", "lots")].

(** * Properties *)

(** ** The session manager *)

Ltac unfold_client :=
  unfold GradioAPIClient.generate_response, GradioAPIClient.get_lambda_data,
    GradioAPIClient._ensure_connection, GradioAPIClient._connect,
    GradioAPIClient.predict, bind, try_except, get_self, get_events, lift,
    emit, logger, set_self, now, raise, ret.

(** Case analysis on each answer of the environment the goal waits for. *)
Ltac env_cases :=
  repeat match goal with
  | |- context [match env_Client ?e ?tr ?u with _ => _ end] =>
      destruct (env_Client e tr u) eqn:?; cbn
  | |- context [match env_predict ?e ?tr ?h ?kw with _ => _ end] =>
      destruct (env_predict e tr h kw) eqn:?; cbn
  | |- context [match slice50 ?v with _ => _ end] =>
      destruct (slice50 v) eqn:?; cbn
  end.

(** [_connect] never raises: it answers [True] or [False], after one call
    of [Client]. *)
Lemma connect_run env url h lc evs lg :
  GradioAPIClient._connect env (MkWorld (Some (MkClient url h lc)) evs lg) =
  match env_Client env evs url with
  | inr h' =>
      (inr true,
       MkWorld
         (Some (MkClient url (Some h')
                  (Some (env_now env (evs ++ [EvClient url (inr h')])))))
         (evs ++ [EvClient url (inr h')])
         (lg ++ [Log INFO "Successfully connected to API: {}" [VStr url]]))
  | inl e =>
      (inr false,
       MkWorld (Some (MkClient url None lc))
         (evs ++ [EvClient url (inl e)])
         (lg ++ [Log ERROR "Failed to connect to API: {}" [VStr (exn_msg e)]]))
  end.
Proof. unfold_client. cbn. by env_cases. Qed.

(** A call from a session that holds a handle. *)
Lemma generate_response_ready env url h lc evs lg ui ml t tp ep :
  let run := GradioAPIClient.generate_response env ui ml t tp ep
               (MkWorld (Some (MkClient url (Some h) lc)) evs lg) in
  same_session url (snd run) /\
  exists new,
    events (snd run) = evs ++ new /\
    attempt_outcome url ui (GradioAPIClient.generate_kwargs ui ml t tp ep)
      h new (fst run).
Proof.
  cbn. unfold_client. cbn. env_cases.
  all: split; [eexists; split; cbn; reflexivity|].
  all: eexists; split; [rewrite <- ?app_assoc; cbn; reflexivity|].
  - apply (ao_reconnect_failed _ _ _ _ []). by apply ff_local.
  - apply (ao_retried _ _ _ _ [] e). by apply ff_local.
  - apply (ao_retried _ _ _ _ [] e). by apply ff_local.
  - apply (ao_reconnect_failed _ _ _ _ [_]). apply ff_remote.
  - apply (ao_retried _ _ _ _ [_] e). apply ff_remote.
  - apply (ao_retried _ _ _ _ [_] e). apply ff_remote.
  - apply ao_first.
Qed.

(** A call from a session without a handle connects first; when that
    fails nothing else happens. *)
Lemma generate_response_lazy env url lc evs lg ui ml t tp ep :
  GradioAPIClient.generate_response env ui ml t tp ep
    (MkWorld (Some (MkClient url None lc)) evs lg) =
  match env_Client env evs url with
  | inr h =>
      GradioAPIClient.generate_response env ui ml t tp ep
        (MkWorld
           (Some (MkClient url (Some h)
                    (Some (env_now env (evs ++ [EvClient url (inr h)])))))
           (evs ++ [EvClient url (inr h)])
           (lg ++ [Log INFO "Successfully connected to API: {}" [VStr url]]))
  | inl e =>
      (inl (ConnectionError "Unable to connect to Gradio API"),
       MkWorld (Some (MkClient url None lc))
         (evs ++ [EvClient url (inl e)])
         (lg ++ [Log ERROR "Failed to connect to API: {}" [VStr (exn_msg e)]]))
  end.
Proof.
  unfold GradioAPIClient.generate_response at 1.
  unfold GradioAPIClient._ensure_connection at 1.
  unfold bind at 1 2. unfold get_self at 1. cbn.
  unfold bind at 1. rewrite connect_run.
  destruct (env_Client env evs url) as [e|h]; cbn; reflexivity.
Qed.

(** The session object survives every call, whatever its outcome. *)
Lemma generate_response_session env self evs lg ui ml t tp ep :
  same_session (api_url self)
    (snd (GradioAPIClient.generate_response env ui ml t tp ep
            (MkWorld (Some self) evs lg))).
Proof.
  destruct self as [url [h|] lc]; cbn.
  - apply generate_response_ready.
  - rewrite generate_response_lazy.
    destruct (env_Client env evs url) as [e|h].
    + eexists; split; reflexivity.
    + apply generate_response_ready.
Qed.

(** The events of a call and its result, by case. *)
Lemma generate_response_outcome env self evs lg ui ml t tp ep :
  let run := GradioAPIClient.generate_response env ui ml t tp ep
               (MkWorld (Some self) evs lg) in
  exists new,
    events (snd run) = evs ++ new /\
    invoke_outcome (api_url self) ui
      (GradioAPIClient.generate_kwargs ui ml t tp ep)
      (client self) new (fst run).
Proof.
  destruct self as [url [h|] lc]; cbn.
  - destruct (generate_response_ready env url h lc evs lg ui ml t tp ep)
      as [_ (new & Hev & Ho)].
    exists new. split; [exact Hev|]. by apply io_ready.
  - rewrite generate_response_lazy.
    destruct (env_Client env evs url) as [e|h] eqn:Hc.
    + eexists. split; [reflexivity|]. apply io_unavailable.
    + destruct (generate_response_ready env url h
                  (Some (env_now env (evs ++ [EvClient url (inr h)])))
                  (evs ++ [EvClient url (inr h)])
                  (lg ++ [Log INFO "Successfully connected to API: {}" [VStr url]])
                  ui ml t tp ep)
        as [_ (new & Hev & Ho)].
      exists (EvClient url (inr h) :: new).
      split; [rewrite Hev, <- app_assoc; reflexivity|]. by apply io_connected.
Qed.

Lemma attempt_outcome_counts url ui kw h new r :
  attempt_outcome url ui kw h new r ->
  nb_predicts new <= 2 /\ nb_clients new <= 1.
Proof.
  intros [v | first e e' [e1|e1 Hs] | first e h' r' [e1|e1 Hs]];
    cbn; lia.
Qed.

(** When the last event of a call is a remote call, its outcome is the
    result of the call. *)
Lemma attempt_outcome_last url ui kw h new r h' kw' r' :
  attempt_outcome url ui kw h new r ->
  last new = Some (EvPredict h' kw' r') ->
  r = r'.
Proof.
  intros [v | first e e' Hf | first e h1 r1 Hf].
  - cbn. congruence.
  - rewrite last_snoc. discriminate.
  - replace (first ++ [EvClient url (inr h1); EvPredict h1 kw r1])
      with ((first ++ [EvClient url (inr h1)]) ++ [EvPredict h1 kw r1])
      by (rewrite <- app_assoc; reflexivity).
    rewrite last_snoc. congruence.
Qed.

Lemma invoke_outcome_last url ui kw oh new r h' kw' r' :
  invoke_outcome url ui kw oh new r ->
  last new = Some (EvPredict h' kw' r') ->
  r = r'.
Proof.
  intros [e | h new1 r1 Ho | h new1 r1 Ho] Hl.
  - discriminate.
  - destruct new1 as [|ev new1].
    + inversion Ho; subst; by destruct first.
    + rewrite last_cons_cons in Hl. eapply attempt_outcome_last; eauto.
  - eapply attempt_outcome_last; eauto.
Qed.

(** C1. Every call of [GradioAPIClient.generate_response] first makes sure
    of a connection: from a session without a handle it calls [Client]
    once, and when that fails it raises [ConnectionError] and issues no
    remote call.  When the first attempt fails it makes exactly one more
    connection attempt; if that fails the first failure is raised, and if
    it succeeds exactly one more remote call is issued, whose outcome
    (value or exception) is the outcome of the whole call.  No other
    interaction with the backend takes place: a call issues at most two
    remote calls and at most two connection attempts in all. *)
Theorem invoke_connects_first_and_retries_once env self evs lg ui ml t tp ep :
  let run := GradioAPIClient.generate_response env ui ml t tp ep
               (MkWorld (Some self) evs lg) in
  exists new,
    events (snd run) = evs ++ new /\
    invoke_outcome (api_url self) ui
      (GradioAPIClient.generate_kwargs ui ml t tp ep)
      (client self) new (fst run) /\
    nb_predicts new <= 2 /\ nb_clients new <= 2.
Proof.
  destruct (generate_response_outcome env self evs lg ui ml t tp ep)
    as (new & Hev & Ho).
  exists new. split; [exact Hev|]. split; [exact Ho|].
  destruct Ho as [e | h new1 r1 Ho | h new1 r1 Ho].
  - cbn. lia.
  - apply attempt_outcome_counts in Ho. cbn. unfold nb_predicts, nb_clients in *. lia.
  - apply attempt_outcome_counts in Ho. lia.
Qed.

(** C9. A call whose first remote call fails, whose reconnection succeeds
    and whose repeated remote call answers [v] returns [v]: the very value
    returned by a call whose first remote call answers [v].  The two calls
    may run against different backends and from different sessions;
    [pre1] and [pre2] are the events before the first remote call. *)
Theorem retry_is_transparent
    env1 env2 self1 self2 evs1 evs2 lg1 lg2 ui ml t tp ep
    pre1 pre2 h1 h1' h2 e v :
  let kw := GradioAPIClient.generate_kwargs ui ml t tp ep in
  let run1 := GradioAPIClient.generate_response env1 ui ml t tp ep
                (MkWorld (Some self1) evs1 lg1) in
  let run2 := GradioAPIClient.generate_response env2 ui ml t tp ep
                (MkWorld (Some self2) evs2 lg2) in
  nb_predicts pre1 = 0 ->
  events (snd run1) =
    evs1 ++ pre1 ++ [EvPredict h1 kw (inl e);
                     EvClient (api_url self1) (inr h1');
                     EvPredict h1' kw (inr v)] ->
  nb_predicts pre2 = 0 ->
  events (snd run2) = evs2 ++ pre2 ++ [EvPredict h2 kw (inr v)] ->
  fst run1 = fst run2 /\ fst run2 = inr v.
Proof.
  intros kw run1 run2 _ H1 _ H2.
  destruct (generate_response_outcome env1 self1 evs1 lg1 ui ml t tp ep)
    as (new1 & Hev1 & Ho1).
  destruct (generate_response_outcome env2 self2 evs2 lg2 ui ml t tp ep)
    as (new2 & Hev2 & Ho2).
  fold run1 in Hev1, Ho1. fold run2 in Hev2, Ho2.
  rewrite H1 in Hev1. apply app_inv_head in Hev1.
  rewrite H2 in Hev2. apply app_inv_head in Hev2.
  assert (fst run1 = inr v) as R1.
  { eapply invoke_outcome_last; [exact Ho1|]. rewrite <- Hev1.
    replace (pre1 ++ [EvPredict h1 kw (inl e); EvClient (api_url self1) (inr h1');
                      EvPredict h1' kw (inr v)])
      with ((pre1 ++ [EvPredict h1 kw (inl e); EvClient (api_url self1) (inr h1')])
              ++ [EvPredict h1' kw (inr v)])
      by (rewrite <- app_assoc; reflexivity).
    apply last_snoc. }
  assert (fst run2 = inr v) as R2.
  { eapply invoke_outcome_last; [exact Ho2|]. rewrite <- Hev2. apply last_snoc. }
  split; congruence.
Qed.

(** The sample run: a restarted backend against a backend that is up. *)
Lemma retry_is_transparent_witness :
  fst (GradioAPIClient.generate_response env_restarted
         (VStr "hi") (VInt 512) (VInt 1) (VInt 1) (VStr "/generate_response")
         w_connected) =
  fst (GradioAPIClient.generate_response env_up
         (VStr "hi") (VInt 512) (VInt 1) (VInt 1) (VStr "/generate_response")
         w_disconnected) /\
  fst (GradioAPIClient.generate_response env_up
         (VStr "hi") (VInt 512) (VInt 1) (VInt 1) (VStr "/generate_response")
         w_disconnected) = inr (VStr "answer").
Proof.
  apply (retry_is_transparent env_restarted env_up
           (sample_client (Some 0)) (sample_client None) [] [] [] []
           (VStr "hi") (VInt 512) (VInt 1) (VInt 1) (VStr "/generate_response")
           [] [EvClient sample_url (inr 0)] 0 1 0 backend_error (VStr "answer"));
    reflexivity.
Defined.

(** ** The API key check *)

Lemma require_api_key_rejects cfg f req w k :
  API_KEY cfg = Some k ->
  str_truthy (API_KEY cfg) = true ->
  provided_key req <> Some k ->
  require_api_key cfg f req w = (inr unauthorized, w).
Proof.
  intros Hk Ht Hp. unfold require_api_key. rewrite Ht.
  destruct (str_truthy (provided_key req)); [|reflexivity].
  rewrite Hk, bool_decide_eq_false_2 by exact Hp. reflexivity.
Qed.

Lemma require_api_key_accepts cfg f req w k :
  API_KEY cfg = Some k ->
  str_truthy (API_KEY cfg) = true ->
  provided_key req = Some k ->
  require_api_key cfg f req w = f req w.
Proof.
  intros Hk Ht Hp. unfold require_api_key. rewrite Ht, Hp, <- Hk, Ht.
  rewrite bool_decide_eq_true_2 by reflexivity. reflexivity.
Qed.

Lemma require_api_key_off cfg f req :
  str_truthy (API_KEY cfg) = false ->
  require_api_key cfg f req = f req.
Proof. intros Ht. unfold require_api_key. by rewrite Ht. Qed.

(** C7. With an API key [k] configured (a non-empty string), a request to
    any key-protected route whose provided key, the [X-API-Key] header or
    else the [api_key] query argument, is absent or differs from [k] gets
    the 401 response [unauthorized], whose body holds [error] and
    [status = "unauthorized"]; the world is left as it was, so that no
    backend call, no log line and no part of the view took place.  A
    request whose provided key is [k] is handed to the view. *)
Theorem wrong_key_is_rejected_before_backend cfg env r req w k :
  API_KEY cfg = Some k ->
  str_truthy (API_KEY cfg) = true ->
  (provided_key req <> Some k ->
     protected cfg env r req w = (inr unauthorized, w)) /\
  (provided_key req = Some k ->
     protected cfg env r req w = handle_errors (view cfg env r) req w) /\
  status_code unauthorized = 401 /\
  assoc "error" (body unauthorized) = Some (VStr "Invalid or missing API key") /\
  assoc "status" (body unauthorized) = Some (VStr "unauthorized").
Proof.
  intros Hk Ht. unfold protected. repeat split.
  - intros Hp. by eapply require_api_key_rejects.
  - intros Hp. by eapply require_api_key_accepts.
Qed.

Lemma wrong_key_is_rejected_before_backend_witness :
  (provided_key req_wrong_key <> Some "s3cret" ->
     protected cfg_key env_up Generate req_wrong_key w_connected =
       (inr unauthorized, w_connected)) /\
  (provided_key req_wrong_key = Some "s3cret" ->
     protected cfg_key env_up Generate req_wrong_key w_connected =
       handle_errors (view cfg_key env_up Generate) req_wrong_key w_connected) /\
  status_code unauthorized = 401 /\
  assoc "error" (body unauthorized) = Some (VStr "Invalid or missing API key") /\
  assoc "status" (body unauthorized) = Some (VStr "unauthorized").
Proof.
  apply (wrong_key_is_rejected_before_backend cfg_key env_up Generate
           req_wrong_key w_connected "s3cret"); reflexivity.
Defined.

(** No view reads the key: it reads the JSON body and the query arguments
    [question], [q], [max_length], [temperature] and [top_p]. *)
Lemma view_ignores_key cfg env r req1 req2 :
  same_but_key req1 req2 ->
  view cfg env r req1 = view cfg env r req2.
Proof.
  intros (Hj & Ha & _). destruct r; cbn.
  - unfold generate_response. by rewrite Hj.
  - unfold ask_question, get_question, float_arg.
    by rewrite (Ha "question"), (Ha "q"), (Ha "max_length"),
      (Ha "temperature"), (Ha "top_p").
  - unfold compare_endpoints. by rewrite Hj.
  - reflexivity.
  - unfold batch_generate. by rewrite Hj.
Qed.

(** C10. With no API key configured ([API_KEY] unset or empty) the check
    hands every request to the view, and two requests that differ at most
    in the [X-API-Key] header and the [api_key] query argument, present or
    not, get the same response and leave the same world. *)
Theorem key_is_ignored_when_not_configured cfg env r req1 req2 w :
  str_truthy (API_KEY cfg) = false ->
  same_but_key req1 req2 ->
  protected cfg env r req1 w = handle_errors (view cfg env r) req1 w /\
  protected cfg env r req1 w = protected cfg env r req2 w.
Proof.
  intros Ht Hs. unfold protected. rewrite !require_api_key_off by exact Ht.
  split; [reflexivity|]. unfold handle_errors.
  by rewrite (view_ignores_key cfg env r req1 req2 Hs).
Qed.

Lemma key_is_ignored_when_not_configured_witness :
  protected cfg_open env_up Ask req_no_key w_connected =
    handle_errors (view cfg_open env_up Ask) req_no_key w_connected /\
  protected cfg_open env_up Ask req_no_key w_connected =
    protected cfg_open env_up Ask req_some_key w_connected.
Proof.
  apply (key_is_ignored_when_not_configured cfg_open env_up Ask
           req_no_key req_some_key w_connected).
  - reflexivity.
  - split; [reflexivity|]. split; intros k Hk.
    + cbn. destruct (decide (k = "question")) as [->|Hq].
      * by rewrite !lookup_insert_eq.
      * by rewrite !lookup_insert_ne.
    + cbn. by rewrite lookup_insert_ne.
Defined.

(** ** Running the monad *)

Lemma bind_inr {A B} (m : M A) (k : A -> M B) w a w' :
  m w = (inr a, w') -> bind m k w = k a w'.
Proof. intros H. unfold bind. by rewrite H. Qed.

Lemma bind_inl {A B} (m : M A) (k : A -> M B) w e w' :
  m w = (inl e, w') -> bind m k w = (inl e, w').
Proof. intros H. unfold bind. by rewrite H. Qed.

(** Runs the first statement of the goal with the equation [H]. *)
Ltac run H := erewrite bind_inr by (first [exact H | apply H]).

Lemma dict_get_run d k default w :
  dict_get (VDict d) k default w = (inr (given d k default), w).
Proof. reflexivity. Qed.

Lemma get_user_input_run d w :
  get_user_input (VDict d) w =
  (inr (py_or (given d "user_input" VNone) (given d "question" VNone)), w).
Proof.
  unfold get_user_input. run dict_get_run.
  unfold py_or. by destruct (truthy (given d "user_input" VNone)).
Qed.

Lemma get_gradio_client_run w : get_gradio_client w = (inr (gradio_client w), w).
Proof. reflexivity. Qed.

(** ** The validation of POST /generate *)

Lemma validate_run lo hi default v n w :
  num_of v = Some n ->
  exists v',
    validate (Fin lo) (Fin hi) default v w = (inr v', w) /\
    (in_range lo hi v -> v' = v) /\
    (~ in_range lo hi v -> v' = VNum default).
Proof.
  intros Hn. unfold validate, in_range. rewrite Hn. eexists. split; [reflexivity|].
  destruct n as [q| | |]; cbn.
  - destruct (Qle_bool lo q) eqn:H1; destruct (Qle_bool q hi) eqn:H2; cbn.
    + split; [done|]. intros Hno. exfalso. apply Hno.
      split; by apply Qle_bool_iff.
    + split; [|done]. intros [_ H]. apply Qle_bool_iff in H. congruence.
    + split; [|done]. intros [H _]. apply Qle_bool_iff in H. congruence.
    + split; [|done]. intros [H _]. apply Qle_bool_iff in H. congruence.
  - split; [tauto|done].
  - split; [tauto|done].
  - split; [tauto|done].
Qed.

(** C3. POST /generate, for a request that reaches the validation (client
    initialised, a JSON object with a non-empty [user_input] or
    [question]) and whose [max_length], [temperature] and [top_p], where
    given, are numbers: the session manager is called with [max_length]
    unchanged when it lies in [[1, 2048]] and with the configured default
    otherwise, and likewise [temperature] for [[0, 2]] and [top_p] for
    [[0, 1]]; a value out of range is neither clamped nor refused, and the
    response echoes the values passed on. *)
Theorem generate_substitutes_defaults cfg env hs ar d gc evs lg n1 n2 n3 :
  let w := MkWorld (Some gc) evs lg in
  let ui := py_or (given d "user_input" VNone) (given d "question" VNone) in
  let ml := given d "max_length" (VNum (DEFAULT_MAX_LENGTH cfg)) in
  let t := given d "temperature" (VNum (DEFAULT_TEMPERATURE cfg)) in
  let tp := given d "top_p" (VNum (DEFAULT_TOP_P cfg)) in
  let ep := given d "endpoint" (VStr "/generate_response") in
  truthy ui = true ->
  num_of ml = Some n1 -> num_of t = Some n2 -> num_of tp = Some n3 ->
  exists ml' t' tp',
    generate_response cfg env (MkRequest hs ar (inr (VDict d))) w =
      (let* response := GradioAPIClient.generate_response env ui ml' t' tp' ep in
       let* ts := now env in
       ret (jsonify [("status", VStr "success");
                     ("user_input", ui);
                     ("response", response);
                     ("parameters",
                       VDict [("max_length", ml'); ("temperature", t');
                              ("top_p", tp'); ("endpoint", ep)]);
                     ("timestamp", VStr ts)] 200)) w /\
    (in_range 1 2048 ml -> ml' = ml) /\
    (~ in_range 1 2048 ml -> ml' = VNum (DEFAULT_MAX_LENGTH cfg)) /\
    (in_range 0 2 t -> t' = t) /\
    (~ in_range 0 2 t -> t' = VNum (DEFAULT_TEMPERATURE cfg)) /\
    (in_range 0 1 tp -> tp' = tp) /\
    (~ in_range 0 1 tp -> tp' = VNum (DEFAULT_TOP_P cfg)).
Proof.
  intros w ui ml t tp ep Hui H1 H2 H3.
  destruct (validate_run 1 2048 (DEFAULT_MAX_LENGTH cfg) ml n1 w H1)
    as (ml' & E1 & A1 & B1).
  destruct (validate_run 0 2 (DEFAULT_TEMPERATURE cfg) t n2 w H2)
    as (t' & E2 & A2 & B2).
  destruct (validate_run 0 1 (DEFAULT_TOP_P cfg) tp n3 w H3)
    as (tp' & E3 & A3 & B3).
  exists ml', t', tp'. split; [|tauto].
  assert (truthy (VDict d) = true) as Hd.
  { destruct d; [|done]. by vm_compute in Hui. }
  unfold generate_response.
  run (get_gradio_client_run w). cbn [gradio_client w initialized negb json].
  run (eq_refl : lift (inr (VDict d)) w = (inr (VDict d), w)).
  rewrite Hd. cbn [negb].
  run (get_user_input_run d w). fold ui. rewrite Hui. cbn [negb].
  do 4 run dict_get_run. fold ml t tp ep.
  run E1. run E2. run E3. reflexivity.
Qed.

Lemma generate_substitutes_defaults_witness :
  exists ml' t' tp',
    generate_response cfg_open env_up
      (MkRequest ∅ ∅ (inr (VDict body_out_of_range))) w_connected =
      (let* response :=
         GradioAPIClient.generate_response env_up (VStr "hi") ml' t' tp'
           (VStr "/generate_response") in
       let* ts := now env_up in
       ret (jsonify [("status", VStr "success");
                     ("user_input", VStr "hi");
                     ("response", response);
                     ("parameters",
                       VDict [("max_length", ml'); ("temperature", t');
                              ("top_p", tp');
                              ("endpoint", VStr "/generate_response")]);
                     ("timestamp", VStr ts)] 200)) w_connected /\
    (in_range 1 2048 (VInt 3000) -> ml' = VInt 3000) /\
    (~ in_range 1 2048 (VInt 3000) -> ml' = VNum (Fin 512)) /\
    (in_range 0 2 (VNum (Fin (1 # 2))) -> t' = VNum (Fin (1 # 2))) /\
    (~ in_range 0 2 (VNum (Fin (1 # 2))) -> t' = VNum (Fin (7 # 10))) /\
    (in_range 0 1 (VNum NaN) -> tp' = VNum NaN) /\
    (~ in_range 0 1 (VNum NaN) -> tp' = VNum (Fin (9 # 10))).
Proof.
  apply (generate_substitutes_defaults cfg_open env_up ∅ ∅ body_out_of_range
           (sample_client (Some 0)) [] [] (Fin 3000) (Fin (1 # 2)) NaN);
    reflexivity.
Defined.

(** ** The batch orchestrator *)

Lemma sleep_accepted env d w :
  sleep_accepts env d = true ->
  sleep env d w =
    (inr tt, MkWorld (gradio_client w) (events w ++ [EvSleep d]) (logs w)).
Proof.
  destruct d as [|b|[q| | |]|s|l|d]; cbn; try discriminate; [done|].
  destruct (env_sleep_overflow env q); cbn; [by rewrite andb_false_r|].
  destruct (Qle_bool 0 q); cbn; [done|discriminate].
Qed.

Lemma sleep_refused env d w :
  sleep_accepts env d = false ->
  exists e, sleep env d w = (inl e, w).
Proof.
  destruct d as [|b|[q| | |]|s|l|d]; cbn; try discriminate; try by eexists.
  destruct (env_sleep_overflow env q); cbn; [by eexists|].
  destruct (Qle_bool 0 q); cbn; [discriminate|by eexists].
Qed.

Lemma same_session_logger url lv text a w :
  same_session url w -> same_session url (snd (logger lv text a w)).
Proof. by intros (self & H1 & H2); exists self. Qed.

Lemma generate_response_same_session env url w ui ml t tp ep :
  same_session url w ->
  same_session url (snd (GradioAPIClient.generate_response env ui ml t tp ep w)).
Proof.
  intros (self & H1 & <-). destruct w as [gc evs lg]. cbn in H1. subst gc.
  apply generate_response_session.
Qed.

(** One turn of the loop, by case. *)
Lemma batch_item_run env ml t tp delay n i q results url w :
  same_session url w ->
  let g := GradioAPIClient.generate_response env q ml t tp
             (VStr "/generate_response") w in
  exists items pause w',
    batch_item env ml t tp delay n i q results w = (inr (results ++ items), w') /\
    same_session url w' /\
    events w' = events (snd g) ++ pause /\
    match fst g with
    | inl e => items = [item_error i q e] /\ pause = []
    | inr v =>
        if (i <? n - 1)%nat then
          if sleep_accepts env delay
          then items = [item_success i q v] /\ pause = [EvSleep delay]
          else (exists e, items = [item_success i q v; item_error i q e]) /\
               pause = []
        else items = [item_success i q v] /\ pause = []
    end.
Proof.
  intros Hs g. pose proof (generate_response_same_session env url w q ml t tp
                             (VStr "/generate_response") Hs) as Hs'.
  fold g in Hs'. unfold batch_item, try_except. unfold bind at 1. fold g.
  destruct g as [[e|v] w1]; cbn [fst snd] in *.
  - exists [item_error i q e], []. eexists. cbn. rewrite app_nil_r. done.
  - destruct (i <? n - 1)%nat.
    + destruct (sleep_accepts env delay) eqn:Ha.
      * unfold bind. rewrite (sleep_accepted _ _ _ Ha). cbn.
        exists [item_success i q v], [EvSleep delay]. eexists. done.
      * destruct (sleep_refused env delay w1 Ha) as [e He].
        unfold bind. rewrite He. cbn.
        exists [item_success i q v; item_error i q e], []. eexists.
        rewrite <- app_assoc, app_nil_r. cbn.
        split; [reflexivity|]. split; [exact Hs'|]. split; [reflexivity|]. eauto.
    + exists [item_success i q v], []. eexists. cbn. rewrite app_nil_r. done.
Qed.

Lemma batch_loop_total env ml t tp delay n url qs :
  forall i results w,
  same_session url w ->
  exists items w',
    batch_loop env ml t tp delay n i qs results w = (inr (results ++ items), w') /\
    same_session url w' /\
    length qs <= length items.
Proof.
  induction qs as [|q qs IH]; intros i results w Hs; cbn [batch_loop].
  - exists [], w. rewrite app_nil_r. done.
  - destruct (batch_item_run env ml t tp delay n i q results url w Hs)
      as (items & pause & w1 & E1 & Hs1 & _ & Hit).
    run E1.
    destruct (IH (S i) (results ++ items) w1 Hs1) as (items' & w2 & E2 & Hs2 & Hl).
    rewrite E2. exists (items ++ items'), w2. rewrite app_assoc.
    split; [done|]. split; [done|].
    rewrite length_app. cbn.
    assert (1 <= length items); [|lia].
    destruct (GradioAPIClient.generate_response env q ml t tp
                (VStr "/generate_response") w).1 as [e|v].
    + destruct Hit as [-> _]. done.
    + destruct (i <? n - 1)%nat; [destruct (sleep_accepts env delay)|].
      * destruct Hit as [-> _]. done.
      * destruct Hit as [[e ->] _]. cbn. lia.
      * destruct Hit as [-> _]. done.
Qed.

Lemma require_api_key_pass cfg f req w :
  provided_key req = API_KEY cfg \/ str_truthy (API_KEY cfg) = false ->
  require_api_key cfg f req w = f req w.
Proof.
  intros [Hp|Ht]; unfold require_api_key.
  - destruct (str_truthy (API_KEY cfg)) eqn:Ht; [|done].
    rewrite Hp, Ht, bool_decide_eq_true_2 by done. done.
  - by rewrite Ht.
Qed.

Lemma handle_errors_returns f req w resp w' :
  f req w = (inr resp, w') -> handle_errors f req w = (inr resp, w').
Proof. intros H. unfold handle_errors, try_except. by rewrite H. Qed.

Lemma batch_generate_rejects cfg env req d qs w :
  initialized (gradio_client w) = true ->
  json req = inr (VDict d) ->
  given d "questions" (VList []) = VList qs ->
  qs = [] \/ 10 < length qs ->
  exists resp,
    batch_generate cfg env req w = (inr resp, w) /\
    status_code resp = 400 /\
    is_Some (assoc "error" (body resp)) /\
    assoc "status" (body resp) = Some (VStr "bad_request").
Proof.
  intros Hi Hj Hq Hsize. unfold batch_generate.
  run (get_gradio_client_run w). rewrite Hi, Hj. cbn [negb].
  run (eq_refl : lift (inr (VDict d)) w = (inr (VDict d), w)).
  destruct d as [|kv d]; [by eexists|].
  cbn [truthy negb]. run dict_get_run. rewrite Hq.
  destruct Hsize as [->|Hlen]; [by eexists|].
  destruct qs as [|q0 qs]; [cbn in Hlen; lia|].
  cbn [truthy is_list negb orb elements_of].
  apply Nat.ltb_lt in Hlen. rewrite Hlen. by eexists.
Qed.

Lemma batch_generate_accepts cfg env req d qs gc evs lg :
  let w := MkWorld (Some gc) evs lg in
  json req = inr (VDict d) ->
  given d "questions" (VList []) = VList qs ->
  1 <= length qs <= 10 ->
  exists items w',
    batch_loop env
      (given d "max_length" (VNum (DEFAULT_MAX_LENGTH cfg)))
      (given d "temperature" (VNum (DEFAULT_TEMPERATURE cfg)))
      (given d "top_p" (VNum (DEFAULT_TOP_P cfg)))
      (given d "delay" (VNum (Fin 1)))
      (length qs) 0 qs [] w = (inr items, w') /\
    length qs <= length items /\
    batch_generate cfg env req w =
      (inr (jsonify
              [("status", VStr "completed");
               ("total_questions", VInt (Z.of_nat (length qs)));
               ("results", VList items);
               ("parameters",
                 VDict [("max_length", given d "max_length" (VNum (DEFAULT_MAX_LENGTH cfg)));
                        ("temperature", given d "temperature" (VNum (DEFAULT_TEMPERATURE cfg)));
                        ("top_p", given d "top_p" (VNum (DEFAULT_TOP_P cfg)));
                        ("delay", given d "delay" (VNum (Fin 1)))]);
               ("timestamp", VStr (env_now env (events w')))] 200), w').
Proof.
  intros w Hj Hq Hlen.
  destruct (batch_loop_total env
              (given d "max_length" (VNum (DEFAULT_MAX_LENGTH cfg)))
              (given d "temperature" (VNum (DEFAULT_TEMPERATURE cfg)))
              (given d "top_p" (VNum (DEFAULT_TOP_P cfg)))
              (given d "delay" (VNum (Fin 1)))
              (length qs) (api_url gc) qs 0 [] w)
    as (items & w' & E & _ & Hl); [by exists gc|].
  cbn [app] in E. exists items, w'. split; [exact E|]. split; [exact Hl|].
  unfold batch_generate.
  run (get_gradio_client_run w). cbn [gradio_client w initialized negb]. rewrite Hj.
  run (eq_refl : lift (inr (VDict d)) w = (inr (VDict d), w)).
  destruct d as [|kv d]; [cbv in Hq; injection Hq as <-; cbn in Hlen; lia|].
  cbn [truthy negb]. run dict_get_run. rewrite Hq.
  destruct qs as [|q0 qs]; [cbn in Hlen; lia|].
  cbn [truthy is_list negb orb elements_of].
  replace (10 <? length (q0 :: qs))%nat with false
    by (symmetry; apply Nat.ltb_ge; lia).
  do 4 run dict_get_run. run E. reflexivity.
Qed.

(** C5. POST /batch, from a caller that passes the key check and with the
    client initialised: when the [questions] of the JSON body (the empty
    list when the field is missing) are an empty list or a list of more
    than 10, the response is a 400 with an [error] and
    [status = "bad_request"], and the world is left as it was: no backend
    call was attempted.  A list of 1 to 10 questions, 10 included, is
    processed: the response is the 200 [completed] one, it reports the
    number of questions and it carries at least one result for each. *)
Theorem batch_size_is_checked cfg env req d qs gc evs lg :
  let w := MkWorld (Some gc) evs lg in
  json req = inr (VDict d) ->
  given d "questions" (VList []) = VList qs ->
  provided_key req = API_KEY cfg \/ str_truthy (API_KEY cfg) = false ->
  (qs = [] \/ 10 < length qs ->
     exists resp,
       protected cfg env Batch req w = (inr resp, w) /\
       status_code resp = 400 /\
       is_Some (assoc "error" (body resp)) /\
       assoc "status" (body resp) = Some (VStr "bad_request")) /\
  (1 <= length qs <= 10 ->
     exists resp w' results,
       protected cfg env Batch req w = (inr resp, w') /\
       status_code resp = 200 /\
       assoc "status" (body resp) = Some (VStr "completed") /\
       assoc "total_questions" (body resp) = Some (VInt (Z.of_nat (length qs))) /\
       assoc "results" (body resp) = Some (VList results) /\
       length qs <= length results).
Proof.
  intros w Hj Hq Hk. unfold protected. cbn [view].
  split.
  - intros Hsize.
    destruct (batch_generate_rejects cfg env req d qs w eq_refl Hj Hq Hsize)
      as (resp & E & Hr).
    exists resp. split; [|exact Hr].
    rewrite require_api_key_pass by exact Hk.
    by apply handle_errors_returns.
  - intros Hlen.
    destruct (batch_generate_accepts cfg env req d qs gc evs lg Hj Hq Hlen)
      as (items & w' & _ & Hl & E).
    eexists _, w', items.
    rewrite require_api_key_pass by exact Hk.
    split; [apply handle_errors_returns; exact E|]. done.
Qed.

Lemma batch_size_is_checked_witness :
  (ten_questions = [] \/ 10 < length ten_questions ->
     exists resp,
       protected cfg_open env_up Batch
         (http_post [("questions", VList ten_questions)]) w_connected =
         (inr resp, w_connected) /\
       status_code resp = 400 /\
       is_Some (assoc "error" (body resp)) /\
       assoc "status" (body resp) = Some (VStr "bad_request")) /\
  (1 <= length ten_questions <= 10 ->
     exists resp w' results,
       protected cfg_open env_up Batch
         (http_post [("questions", VList ten_questions)]) w_connected =
         (inr resp, w') /\
       status_code resp = 200 /\
       assoc "status" (body resp) = Some (VStr "completed") /\
       assoc "total_questions" (body resp) =
         Some (VInt (Z.of_nat (length ten_questions))) /\
       assoc "results" (body resp) = Some (VList results) /\
       length ten_questions <= length results).
Proof.
  apply (batch_size_is_checked cfg_open env_up
           (http_post [("questions", VList ten_questions)])
           [("questions", VList ten_questions)] ten_questions
           (sample_client (Some 0)) [] []).
  - reflexivity.
  - reflexivity.
  - right. reflexivity.
Defined.

(** ** Error responses *)

Lemma all_error_shaped_ret resp :
  error_shaped resp -> all_error_shaped (ret resp).
Proof. intros H w r w' E. injection E as <- _. exact H. Qed.

Lemma all_error_shaped_bind {A} (m : M A) (k : A -> M Response) :
  (forall a, all_error_shaped (k a)) -> all_error_shaped (bind m k).
Proof.
  intros H w r w' E. unfold bind in E.
  destruct (m w) as [[e|a] w1]; [discriminate|]. by eapply H.
Qed.

Lemma error_shaped_ok d : error_shaped (jsonify d 200).
Proof. intros H. exfalso. by apply H. Qed.

Lemma error_shaped_fields d code v1 v2 :
  assoc "error" d = Some v1 -> assoc "status" d = Some v2 ->
  error_shaped (jsonify d code).
Proof. intros H1 H2 _. cbn. rewrite H1, H2. eauto. Qed.

Ltac shaped :=
  repeat first
    [ apply all_error_shaped_bind; intros
    | apply all_error_shaped_ret;
      first [ apply error_shaped_ok
            | eapply error_shaped_fields; reflexivity ]
    | match goal with
      | |- all_error_shaped (if ?b then _ else _) => destruct b
      end ].

Lemma view_error_shaped cfg env r req : all_error_shaped (view cfg env r req).
Proof.
  destruct r; cbn [view];
    unfold generate_response, ask_question, compare_endpoints,
      get_sample_data, batch_generate; shaped.
Qed.

Lemma handle_errors_run f req w :
  fst (handle_errors f req w) =
  match fst (f req w) with
  | inl e => inr (error_body e)
  | inr resp => inr resp
  end.
Proof.
  unfold handle_errors, try_except, error_body.
  destruct (f req w) as [[e|resp] w']; [|reflexivity].
  cbn [fst]. by destruct (exn_conn e).
Qed.

Lemma error_body_shaped e : error_shaped (error_body e).
Proof.
  unfold error_body. destruct (exn_conn e);
    eapply error_shaped_fields; reflexivity.
Qed.

Lemma health_check_run cfg env req w :
  exists status message code,
    fst (health_check cfg env req w) =
      inr (jsonify [("status", VStr status);
                    ("message", VStr message);
                    ("api_url", VStr (API_URL cfg));
                    ("last_connected",
                      match gradio_client w with
                      | Some self => opt_value (last_connected self)
                      | None => VNone
                      end);
                    ("timestamp", VStr (env_now env (events (snd (health_check cfg env req w)))))]
             code) /\
    (message = "API connection successful" \/
     message = "Gradio client not initialized" \/
     exists e, message = String.append "API connection failed: " (exn_msg e)).
Proof.
  unfold health_check, bind, try_except, get_gradio_client, get_events,
    emit, logger, now, ret.
  destruct w as [[[url [h|] lc]|] evs lg]; cbn.
  - destruct (env_Client env evs url) as [e|h']; cbn;
      eexists _, _, _; (split; [reflexivity|]); eauto.
  - eexists _, _, _; (split; [reflexivity|]); eauto.
  - eexists _, _, _; (split; [reflexivity|]); eauto.
Qed.

(** C8, as amended.  Every response of a key-protected route that is not a
    200 (the 401 of the key check, the 400 and 503 of the guards of the
    views, the 503 and 500 of the error wrapper) is a JSON object with an
    [error] and a [status] field, and no such route ever raises.  The
    health endpoint always answers a JSON object with [status] and
    [message] and without [error], its failures included; its message is
    a fixed text, followed by [str(e)] when the connection test raised
    [e].  The error wrapper puts [str(e)] in the body and nothing else of
    the exception: the trace goes to the log only. *)
Theorem error_responses_name_error_and_status cfg env :
  (forall r req w,
     exists resp,
       fst (protected cfg env r req w) = inr resp /\ error_shaped resp) /\
  (forall req w,
     exists resp message,
       fst (health_check cfg env req w) = inr resp /\
       is_Some (assoc "status" (body resp)) /\
       assoc "message" (body resp) = Some (VStr message) /\
       assoc "error" (body resp) = None /\
       (message = "API connection successful" \/
        message = "Gradio client not initialized" \/
        exists e, message = String.append "API connection failed: " (exn_msg e))) /\
  (forall f req w,
     fst (handle_errors f req w) =
     match fst (f req w) with
     | inl e => inr (error_body e)
     | inr resp => inr resp
     end) /\
  (forall e trace,
     error_body (Exn (exn_conn e) (exn_msg e) trace) = error_body e).
Proof.
  split; [|split; [|split]].
  - intros r req w. unfold protected, require_api_key.
    assert (exists resp,
              fst (handle_errors (view cfg env r) req w) = inr resp /\
              error_shaped resp) as Hv.
    { rewrite handle_errors_run.
      destruct (view cfg env r req w) as [[e|resp] w'] eqn:E; cbn [fst].
      - eexists. split; [reflexivity|]. apply error_body_shaped.
      - eexists. split; [reflexivity|]. by eapply view_error_shaped. }
    destruct (str_truthy (API_KEY cfg)); [|exact Hv].
    match goal with |- context [if ?b then _ else _] => destruct b end;
      [|exact Hv].
    exists unauthorized. split; [reflexivity|].
    eapply error_shaped_fields; reflexivity.
  - intros req w.
    destruct (health_check_run cfg env req w) as (st & msg & code & E & Hm).
    eexists _, msg. split; [exact E|]. cbn. eauto.
  - apply handle_errors_run.
  - reflexivity.
Qed.

(** C8, as stated, fails on the health endpoint: with the backend down it
    answers a 503 whose body has no [error] field. *)
Lemma health_failure_has_no_error_field :
  exists resp,
    fst (health_check cfg_open env_down (http_get []) w_connected) = inr resp /\
    status_code resp = 503 /\
    assoc "status" (body resp) = Some (VStr "unhealthy") /\
    assoc "error" (body resp) = None.
Proof. eexists. split; [reflexivity|]. by repeat split. Qed.

(** ** Where the code departs from the claims *)

(** C2 fails on the code.  A batch of two questions with [delay = -1], the
    backend answering both: [time.sleep] raises inside the [try] block
    after the success item of the first question was appended, and the
    handler appends an error item for the same question.  The response
    reports 2 questions and carries 3 results, two of them with index 0. *)
Theorem batch_repeats_item_when_sleep_raises :
  exists resp w',
    protected cfg_open env_up Batch batch_negative_delay w_connected =
      (inr resp, w') /\
    status_code resp = 200 /\
    assoc "total_questions" (body resp) = Some (VInt 2) /\
    assoc "results" (body resp) =
      Some (VList [item_success 0 (VStr "a") (VStr "answer");
                   item_error 0 (VStr "a")
                     (ValueError "sleep length must be non-negative");
                   item_success 1 (VStr "b") (VStr "answer")]).
Proof.
  remember (protected cfg_open env_up Batch batch_negative_delay w_connected)
    as run eqn:E.
  vm_compute in E. subst run. eexists _, _. split; [reflexivity|].
  repeat split; vm_compute; reflexivity.
Qed.

(** C4 fails on the code.  GET /ask, POST /compare and POST /batch hand
    [max_length = 3000] to the backend as it is, although the configured
    default is 512: only POST /generate validates. *)
Theorem only_generate_validates :
  events (snd (protected cfg_open env_up Ask ask_3000 w_connected)) =
    [EvPredict 0 (kwargs_3000 "/generate_response") (inr (VStr "answer"))] /\
  events (snd (protected cfg_open env_up Compare compare_3000 w_connected)) =
    [EvPredict 0 (kwargs_3000 "/generate_response") (inr (VStr "answer"));
     EvSleep (VNum (Fin (1 # 2)));
     EvPredict 0 (kwargs_3000 "/generate_response_1") (inr (VStr "answer"))] /\
  events (snd (protected cfg_open env_up Batch batch_3000 w_connected)) =
    [EvPredict 0 (kwargs_3000 "/generate_response") (inr (VStr "answer"))] /\
  events (snd (protected cfg_open env_up Generate compare_3000 w_connected)) =
    [EvPredict 0 (kwargs_default "hi") (inr (VStr "answer"))].
Proof. repeat split; vm_compute; reflexivity. Qed.

(** C6 fails on the code.  A batch of two questions with the default
    delay, the backend failing on the first: both remote calls for it
    fail, its error item is appended, and the remote call for the second
    question follows with no [time.sleep] in between. *)
Theorem no_delay_after_failed_item :
  exists resp w',
    protected cfg_open env_picky Batch batch_bad_first w_connected =
      (inr resp, w') /\
    assoc "results" (body resp) =
      Some (VList [item_error 0 (VStr "bad") backend_error;
                   item_success 1 (VStr "b") (VStr "answer")]) /\
    events w' =
      [EvPredict 0 (kwargs_default "bad") (inl backend_error);
       EvClient sample_url (inr 1);
       EvPredict 1 (kwargs_default "bad") (inl backend_error);
       EvPredict 1 (kwargs_default "b") (inr (VStr "answer"))].
Proof.
  remember (protected cfg_open env_picky Batch batch_bad_first w_connected)
    as run eqn:E.
  vm_compute in E. subst run. eexists _, _. split; [reflexivity|].
  split; vm_compute; reflexivity.
Qed.

(** ** The batch when [time.sleep] accepts the delay *)

Lemma generate_response_events env url w ui ml t tp ep :
  same_session url w ->
  let g := GradioAPIClient.generate_response env ui ml t tp ep w in
  exists oh new,
    events (snd g) = events w ++ new /\
    invoke_outcome url ui (GradioAPIClient.generate_kwargs ui ml t tp ep)
      oh new (fst g).
Proof.
  intros (self & H1 & <-). destruct w as [gc evs lg]. cbn in H1. subst gc.
  destruct (generate_response_outcome env self evs lg ui ml t tp ep)
    as (new & Hev & Ho).
  by exists (client self), new.
Qed.

Lemma batch_loop_run env url ml t tp delay n qs :
  sleep_accepts env delay = true ->
  forall i results w,
  same_session url w ->
  exists items tr w',
    batch_loop env ml t tp delay n i qs results w = (inr (results ++ items), w') /\
    events w' = events w ++ tr /\
    batch_run url ml t tp delay n i qs tr items.
Proof.
  intros Ha. induction qs as [|q qs IH]; intros i results w Hs; cbn [batch_loop].
  - exists [], [], w. rewrite !app_nil_r. split; [done|]. split; [done|]. constructor.
  - destruct (batch_item_run env ml t tp delay n i q results url w Hs)
      as (items & pause & w1 & E1 & Hs1 & Hev1 & Hit).
    destruct (generate_response_events env url w q ml t tp
                (VStr "/generate_response") Hs) as (oh & new & Hev & Ho).
    run E1.
    destruct (IH (S i) (results ++ items) w1 Hs1)
      as (items' & tr & w2 & E2 & Hev2 & Hrun).
    rewrite Hev1, Hev in Hev2. rewrite E2. clear E1 E2 Hev1 Hev.
    destruct (GradioAPIClient.generate_response env q ml t tp
                (VStr "/generate_response") w).1 as [e|v].
    + destruct Hit as [-> ->].
      exists (item_error i q e :: items'), (new ++ tr), w2.
      split; [by rewrite <- app_assoc|].
      split; [by rewrite Hev2, app_nil_r, <- app_assoc|].
      by eapply br_failure.
    + assert (items = [item_success i q v] /\ pause = pause_after delay n i)
        as [-> ->].
      { unfold pause_after. destruct (i <? n - 1)%nat; [|done].
        by rewrite Ha in Hit. }
      exists (item_success i q v :: items'),
        (new ++ pause_after delay n i ++ tr), w2.
      split; [by rewrite <- app_assoc|].
      split; [by rewrite Hev2, <- !app_assoc|].
      by eapply br_success.
Qed.


Lemma batch_generate_run cfg env req d qs gc evs lg :
  let w := MkWorld (Some gc) evs lg in
  let ml := given d "max_length" (VNum (DEFAULT_MAX_LENGTH cfg)) in
  let t := given d "temperature" (VNum (DEFAULT_TEMPERATURE cfg)) in
  let tp := given d "top_p" (VNum (DEFAULT_TOP_P cfg)) in
  let delay := given d "delay" (VNum (Fin 1)) in
  json req = inr (VDict d) ->
  given d "questions" (VList []) = VList qs ->
  1 <= length qs <= 10 ->
  sleep_accepts env delay = true ->
  exists items tr w',
    batch_generate cfg env req w =
      (inr (jsonify
              [("status", VStr "completed");
               ("total_questions", VInt (Z.of_nat (length qs)));
               ("results", VList items);
               ("parameters",
                 VDict [("max_length", ml); ("temperature", t);
                        ("top_p", tp); ("delay", delay)]);
               ("timestamp", VStr (env_now env (events w')))] 200), w') /\
    events w' = evs ++ tr /\
    batch_run (api_url gc) ml t tp delay (length qs) 0 qs tr items.
Proof.
  intros w ml t tp delay Hj Hq Hlen Ha.
  destruct (batch_generate_accepts cfg env req d qs gc evs lg Hj Hq Hlen)
    as (items & w' & El & _ & E).
  destruct (batch_loop_run env (api_url gc) ml t tp delay (length qs) qs Ha
              0 [] w) as (items' & tr & w'' & El' & Hev & Hrun);
    [by exists gc|].
  cbn [app] in El'. fold w ml t tp delay in El. rewrite El in El'.
  injection El' as <- <-. by exists items, tr, w'.
Qed.



(** X2. POST /batch with 1 to 10 questions and a delay that [time.sleep]
    accepts: the events of the request are those of [batch_run].  Every
    question gets exactly one call of the session manager, in order; one
    [time.sleep(delay)] follows each call that succeeded, the last
    position excepted; no pause follows a call that failed, and none
    follows the last question. *)
Theorem batch_pauses_after_successes cfg env req d qs gc evs lg :
  json req = inr (VDict d) ->
  given d "questions" (VList []) = VList qs ->
  1 <= length qs <= 10 ->
  sleep_accepts env (given d "delay" (VNum (Fin 1))) = true ->
  exists tr items,
    events (snd (batch_generate cfg env req (MkWorld (Some gc) evs lg))) =
      evs ++ tr /\
    batch_run (api_url gc)
      (given d "max_length" (VNum (DEFAULT_MAX_LENGTH cfg)))
      (given d "temperature" (VNum (DEFAULT_TEMPERATURE cfg)))
      (given d "top_p" (VNum (DEFAULT_TOP_P cfg)))
      (given d "delay" (VNum (Fin 1)))
      (length qs) 0 qs tr items.
Proof.
  intros Hj Hq Hlen Ha.
  destruct (batch_generate_run cfg env req d qs gc evs lg Hj Hq Hlen Ha)
    as (items & tr & w' & E & Hev & Hrun).
  exists tr, items. rewrite E. by split.
Qed.

Lemma batch_pauses_after_successes_witness :
  exists tr items,
    events (snd (batch_generate cfg_open env_picky batch_of_three w_connected)) =
      [] ++ tr /\
    batch_run sample_url (VNum (Fin 512)) (VNum (Fin (7 # 10)))
      (VNum (Fin (9 # 10))) (VNum (Fin 1))
      (length three_questions) 0 three_questions tr items.
Proof.
  apply (batch_pauses_after_successes cfg_open env_picky batch_of_three
           [("questions", VList three_questions)] three_questions
           (sample_client (Some 0)) [] []).
  - reflexivity.
  - reflexivity.
  - cbn. lia.
  - reflexivity.
Defined.

(** ** The other routes *)

(** X3. POST /compare, for a request with a JSON object and a non-empty
    [user_input] or [question]: the session manager is called twice, for
    the two fixed endpoints, with the [max_length], [temperature] and
    [top_p] of the body as they are (or the defaults where absent); no
    value is compared with a range, and half a second of sleep separates
    the two calls. *)
Theorem compare_passes_parameters_unchecked cfg env hs ar d gc evs lg :
  let w := MkWorld (Some gc) evs lg in
  let ui := py_or (given d "user_input" VNone) (given d "question" VNone) in
  let ml := given d "max_length" (VNum (DEFAULT_MAX_LENGTH cfg)) in
  let t := given d "temperature" (VNum (DEFAULT_TEMPERATURE cfg)) in
  let tp := given d "top_p" (VNum (DEFAULT_TOP_P cfg)) in
  truthy ui = true ->
  compare_endpoints cfg env (MkRequest hs ar (inr (VDict d))) w =
    (let* response1 :=
       GradioAPIClient.generate_response env ui ml t tp
         (VStr "/generate_response") in
     emit (EvSleep (VNum (Fin (1 # 2))));;
     let* response2 :=
       GradioAPIClient.generate_response env ui ml t tp
         (VStr "/generate_response_1") in
     let* ts := now env in
     ret (jsonify [("status", VStr "success");
                   ("user_input", ui);
                   ("responses",
                     VDict [("endpoint_1", response1);
                            ("endpoint_2", response2)]);
                   ("parameters",
                     VDict [("max_length", ml); ("temperature", t);
                            ("top_p", tp)]);
                   ("timestamp", VStr ts)] 200)) w.
Proof.
  intros w ui ml t tp Hui.
  assert (truthy (VDict d) = true) as Hd.
  { destruct d; [|done]. by vm_compute in Hui. }
  unfold compare_endpoints.
  run (get_gradio_client_run w). cbn [gradio_client w initialized negb json].
  run (eq_refl : lift (inr (VDict d)) w = (inr (VDict d), w)).
  rewrite Hd. cbn [negb].
  run (get_user_input_run d w). fold ui. rewrite Hui. cbn [negb].
  do 3 run dict_get_run. reflexivity.
Qed.

Lemma compare_passes_parameters_unchecked_witness :
  compare_endpoints cfg_open env_up compare_3000 w_connected =
    (let* response1 :=
       GradioAPIClient.generate_response env_up (VStr "hi") (VInt 3000)
         (VNum (Fin (7 # 10))) (VNum (Fin (9 # 10)))
         (VStr "/generate_response") in
     emit (EvSleep (VNum (Fin (1 # 2))));;
     let* response2 :=
       GradioAPIClient.generate_response env_up (VStr "hi") (VInt 3000)
         (VNum (Fin (7 # 10))) (VNum (Fin (9 # 10)))
         (VStr "/generate_response_1") in
     let* ts := now env_up in
     ret (jsonify [("status", VStr "success");
                   ("user_input", VStr "hi");
                   ("responses",
                     VDict [("endpoint_1", response1);
                            ("endpoint_2", response2)]);
                   ("parameters",
                     VDict [("max_length", VInt 3000);
                            ("temperature", VNum (Fin (7 # 10)));
                            ("top_p", VNum (Fin (9 # 10)))]);
                   ("timestamp", VStr ts)] 200)) w_connected.
Proof.
  apply (compare_passes_parameters_unchecked cfg_open env_up ∅ ∅
           [("user_input", VStr "hi"); ("max_length", VInt 3000)]
           (sample_client (Some 0)) [] []).
  reflexivity.
Defined.

(** X4. GET /health answers 200 exactly when the session holds a handle
    and a fresh [Client(url)] succeeds; in every other case, the backend
    being unreachable or the client missing, it answers 503. *)
Theorem health_is_200_only_when_backend_answers cfg env req w :
  exists resp,
    fst (health_check cfg env req w) = inr resp /\
    status_code resp =
      match gradio_client w with
      | Some (MkClient url (Some _) _) =>
          match env_Client env (events w) url with
          | inr _ => 200
          | inl _ => 503
          end
      | _ => 503
      end.
Proof.
  unfold health_check, bind, try_except, get_gradio_client, get_events,
    emit, logger, now, ret.
  destruct w as [[[url [h|] lc]|] evs lg]; cbn.
  - destruct (env_Client env evs url) as [e|h']; cbn; by eexists.
  - by eexists.
  - by eexists.
Qed.

(** X5. [get_lambda_data] from a session that holds a handle issues
    exactly one remote call, to [/lambda], and its outcome is the result:
    a failure is logged and raised again, with no reconnection and no
    second call. *)
Theorem get_lambda_data_does_not_retry env url h lc evs lg :
  let w := MkWorld (Some (MkClient url (Some h) lc)) evs lg in
  let r := env_predict env evs h [("api_name", VStr "/lambda")] in
  fst (GradioAPIClient.get_lambda_data env w) = r /\
  events (snd (GradioAPIClient.get_lambda_data env w)) =
    evs ++ [EvPredict h [("api_name", VStr "/lambda")] r].
Proof.
  cbn. unfold_client. cbn.
  by destruct (env_predict env evs h [("api_name", VStr "/lambda")]).
Qed.

(** ** The session after a call *)

Lemma generate_response_ready_handle env url h lc evs lg ui ml t tp ep :
  let run := GradioAPIClient.generate_response env ui ml t tp ep
               (MkWorld (Some (MkClient url (Some h) lc)) evs lg) in
  exists self' new,
    gradio_client (snd run) = Some self' /\
    api_url self' = url /\
    events (snd run) = evs ++ new /\
    client self' = handle_after (Some h) new.
Proof.
  cbn. unfold_client. cbn. env_cases.
  all: eexists _, _; split; [reflexivity|]; split; [reflexivity|].
  all: split; [rewrite <- ?app_assoc; cbn; reflexivity|reflexivity].
Qed.

(** X6. A call of [GradioAPIClient.generate_response] changes the handle
    of the session only through its connection attempts: the handle after
    the call is the one of the last [Client] call of the call, [None] if
    that call failed, and the handle held before if the call made no
    connection attempt.  A failed remote call alone does not clear the
    handle; a failed reconnection does. *)
Theorem handle_changes_only_when_connecting env self evs lg ui ml t tp ep :
  let run := GradioAPIClient.generate_response env ui ml t tp ep
               (MkWorld (Some self) evs lg) in
  exists self' new,
    gradio_client (snd run) = Some self' /\
    api_url self' = api_url self /\
    events (snd run) = evs ++ new /\
    client self' = handle_after (client self) new.
Proof.
  destruct self as [url [h|] lc]; cbn.
  - apply generate_response_ready_handle.
  - rewrite generate_response_lazy.
    destruct (env_Client env evs url) as [e|h] eqn:Hc.
    + by eexists _, _.
    + destruct (generate_response_ready_handle env url h
                  (Some (env_now env (evs ++ [EvClient url (inr h)])))
                  (evs ++ [EvClient url (inr h)])
                  (lg ++ [Log INFO "Successfully connected to API: {}" [VStr url]])
                  ui ml t tp ep)
        as (self' & new & H1 & H2 & H3 & H4).
      exists self', (EvClient url (inr h) :: new).
      split; [exact H1|]. split; [exact H2|].
      split; [rewrite H3, <- app_assoc; reflexivity|]. exact H4.
Qed.

(** ** The invariant of the session *)

Lemma keeps_ret {A} url (a : A) : keeps url (ret a).
Proof. by intros w H. Qed.

Lemma keeps_raise {A} url e : keeps url (@raise A e).
Proof. by intros w H. Qed.

Lemma keeps_lift {A} url (r : exn + A) : keeps url (lift r).
Proof. destruct r; [apply keeps_raise|apply keeps_ret]. Qed.

Lemma keeps_bind {A B} url (m : M A) (k : A -> M B) :
  keeps url m -> (forall a, keeps url (k a)) -> keeps url (bind m k).
Proof.
  intros Hm Hk w H. unfold bind. specialize (Hm w H).
  destruct (m w) as [[e|a] w1]; [exact Hm|]. by apply Hk.
Qed.

Lemma keeps_try_except {A} url (m : M A) (h : exn -> M A) :
  keeps url m -> (forall e, keeps url (h e)) -> keeps url (try_except m h).
Proof.
  intros Hm Hh w H. unfold try_except. specialize (Hm w H).
  destruct (m w) as [[e|a] w1]; [by apply Hh|exact Hm].
Qed.

Lemma keeps_logger url lv text a : keeps url (logger lv text a).
Proof. by intros w H. Qed.

Lemma keeps_emit url ev : keeps url (emit ev).
Proof. by intros w H. Qed.

Lemma keeps_now url env : keeps url (now env).
Proof. by intros w H. Qed.

Lemma keeps_get_events url : keeps url get_events.
Proof. by intros w H. Qed.

Lemma keeps_get_gradio_client url : keeps url get_gradio_client.
Proof. by intros w H. Qed.

Lemma keeps_dict_get url data k default : keeps url (dict_get data k default).
Proof. destruct data; first [apply keeps_raise|apply keeps_ret]. Qed.

Lemma keeps_validate url lo hi default v : keeps url (validate lo hi default v).
Proof.
  unfold validate. destruct (num_of v); [apply keeps_ret|apply keeps_raise].
Qed.

Lemma keeps_sleep url env d : keeps url (sleep env d).
Proof.
  unfold sleep.
  repeat first
    [ apply keeps_emit | apply keeps_raise
    | match goal with
      | |- keeps _ (match ?x with _ => _ end) => destruct x
      | |- keeps _ (if ?b then _ else _) => destruct b
      end ].
Qed.

Lemma keeps_connect url env : keeps url (GradioAPIClient._connect env).
Proof.
  intros [gc evs lg] (self & Hg & Hu & Hi). cbn in Hg. subst gc.
  destruct self as [u h lc]. cbn in Hu. subst u. rewrite connect_run.
  destruct (env_Client env evs url) as [e|h'].
  - eexists. split; [reflexivity|]. split; [reflexivity|].
    cbn. by intros [? ?].
  - eexists. split; [reflexivity|]. split; [reflexivity|]. cbn. eauto.
Qed.

Lemma keeps_predict url env kw : keeps url (GradioAPIClient.predict env kw).
Proof.
  intros [gc evs lg] (self & Hg & Hu & Hi). cbn in Hg. subst gc.
  unfold GradioAPIClient.predict, bind, get_self, get_events, emit, lift,
    raise, ret; cbn.
  assert (session_ok url (MkWorld (Some self) evs lg)) as Hok
    by (exists self; auto).
  destruct (client self) as [h|]; [|exact Hok].
  destruct (env_predict env _ h kw); exact Hok.
Qed.

Lemma keeps_ensure_connection url env :
  keeps url (GradioAPIClient._ensure_connection env).
Proof.
  intros [gc evs lg] (self & Hg & Hu & Hi). cbn in Hg. subst gc.
  unfold GradioAPIClient._ensure_connection. unfold bind at 1, get_self at 1. cbn.
  assert (session_ok url (MkWorld (Some self) evs lg)) as Hok
    by (exists self; auto).
  destruct (client self) as [h|]; [exact Hok|].
  apply keeps_bind; [apply keeps_connect| |exact Hok].
  intros [|]; [apply keeps_ret|apply keeps_raise].
Qed.

(** Proves [keeps] of a computation built from the statements above. *)
Ltac keeps_tac :=
  repeat first
    [ apply keeps_ret | apply keeps_raise | apply keeps_lift
    | apply keeps_logger | apply keeps_emit | apply keeps_now
    | apply keeps_get_events | apply keeps_get_gradio_client
    | apply keeps_dict_get | apply keeps_validate | apply keeps_sleep
    | apply keeps_connect | apply keeps_predict | apply keeps_ensure_connection
    | apply keeps_bind; [|intros]
    | apply keeps_try_except; [|intros]
    | match goal with
      | |- keeps _ (if ?b then _ else _) => destruct b
      | |- keeps _ (match ?x with _ => _ end) => destruct x
      end ].

Lemma keeps_generate_response url env ui ml t tp ep :
  keeps url (GradioAPIClient.generate_response env ui ml t tp ep).
Proof. unfold GradioAPIClient.generate_response. keeps_tac. Qed.

Lemma keeps_get_lambda_data url env :
  keeps url (GradioAPIClient.get_lambda_data env).
Proof. unfold GradioAPIClient.get_lambda_data. keeps_tac. Qed.
Lemma keeps_float_arg url env req k default :
  keeps url (float_arg env req k default).
Proof.
  unfold float_arg. keeps_tac.
Qed.

Lemma keeps_get_user_input url data : keeps url (get_user_input data).
Proof. unfold get_user_input. keeps_tac. Qed.

Lemma keeps_batch_item url env ml t tp delay n i q results :
  keeps url (batch_item env ml t tp delay n i q results).
Proof.
  unfold batch_item. cbv zeta.
  apply keeps_try_except; [|intros; keeps_tac].
  apply keeps_bind; [apply keeps_generate_response|intros].
  keeps_tac.
Qed.

Lemma keeps_batch_loop url env ml t tp delay n qs :
  forall i results, keeps url (batch_loop env ml t tp delay n i qs results).
Proof.
  induction qs as [|q qs IH]; intros i results; cbn [batch_loop].
  - apply keeps_ret.
  - apply keeps_bind; [apply keeps_batch_item|intros; apply IH].
Qed.

Lemma keeps_view url cfg env r req : keeps url (view cfg env r req).
Proof.
  destruct r; cbn [view];
    unfold generate_response, ask_question, compare_endpoints,
      get_sample_data, batch_generate;
    repeat first
      [ apply keeps_generate_response | apply keeps_get_lambda_data
      | apply keeps_batch_loop | apply keeps_get_user_input
      | apply keeps_float_arg
      | apply keeps_ret | apply keeps_lift | apply keeps_emit
      | apply keeps_now | apply keeps_get_gradio_client
      | apply keeps_dict_get | apply keeps_validate
      | apply keeps_bind; [|intros]
      | match goal with
        | |- keeps _ (if ?b then _ else _) => destruct b
        end ].
Qed.

Lemma keeps_protected url cfg env r req : keeps url (protected cfg env r req).
Proof.
  unfold protected, require_api_key, handle_errors.
  repeat first
    [ apply keeps_view | apply keeps_ret | apply keeps_logger
    | apply keeps_bind; [|intros]
    | apply keeps_try_except; [|intros]
    | match goal with
      | |- keeps _ (if ?b then _ else _) => destruct b
      end ].
Qed.

Lemma health_check_world cfg env req w :
  gradio_client (snd (health_check cfg env req w)) = gradio_client w /\
  events (snd (health_check cfg env req w)) =
    events w ++
    match gradio_client w with
    | Some (MkClient url (Some _) _) =>
        [EvClient url (env_Client env (events w) url)]
    | _ => []
    end.
Proof.
  unfold health_check, bind, try_except, get_gradio_client, get_events,
    emit, logger, now, ret.
  destruct w as [[[url [h|] lc]|] evs lg]; cbn.
  - by destruct (env_Client env evs url).
  - by rewrite app_nil_r.
  - by rewrite app_nil_r.
Qed.

(** X7. Start-up never leaves the global client unset: the constructor
    makes exactly one connection attempt and does not raise, so that the
    client object exists whether the backend answered or not.  It holds
    the handle if the attempt succeeded and none otherwise. *)
Theorem startup_builds_the_client cfg env w :
  let r := env_Client env (events w) (API_URL cfg) in
  let w' := snd (startup cfg env w) in
  fst (startup cfg env w) = inr tt /\
  events w' = events w ++ [EvClient (API_URL cfg) r] /\
  exists self,
    gradio_client w' = Some self /\
    api_url self = API_URL cfg /\
    client self = match r with inr h => Some h | inl _ => None end /\
    (is_Some (client self) -> is_Some (last_connected self)).
Proof.
  unfold startup, GradioAPIClient.__init__. unfold_client. cbn.
  destruct (env_Client env (events w) (API_URL cfg)) as [e|h]; cbn.
  - split; [done|]. split; [done|]. eexists. split; [reflexivity|].
    cbn. split; [done|]. split; [done|]. by intros [? ?].
  - split; [done|]. split; [done|]. eexists. split; [reflexivity|].
    cbn. eauto.
Qed.

(** X8. In every world the service can reach (start-up, then requests
    served one at a time by the key-protected routes and by the health
    endpoint) the global client object exists, is the one built for
    [API_URL], and holds the time of its connection whenever it holds a
    handle.  The guard [if not gradio_client] of the views is therefore
    never taken. *)
Theorem reachable_worlds_have_a_session cfg env w :
  reachable cfg env w ->
  session_ok (API_URL cfg) w /\ initialized (gradio_client w) = true.
Proof.
  intros H.
  assert (session_ok (API_URL cfg) w) as Hok.
  { induction H as [w0 | w r req _ IH | w req _ IH].
    - destruct (startup_builds_the_client cfg env w0)
        as (_ & _ & self & H1 & H2 & _ & H4).
      by exists self.
    - by apply keeps_protected.
    - destruct IH as (self & H1 & H2 & H3).
      exists self. split; [|done].
      by rewrite (proj1 (health_check_world cfg env req w)). }
  split; [exact Hok|]. destruct Hok as (self & -> & _). reflexivity.
Qed.
(** ** Requests the views refuse *)

Lemma handle_errors_raised f req w e w' :
  f req w = (inl e, w') ->
  fst (handle_errors f req w) = inr (error_body e) /\
  same_but_logs w' (snd (handle_errors f req w)).
Proof.
  intros H. unfold handle_errors, try_except, error_body, same_but_logs.
  rewrite H. by destruct (exn_conn e).
Qed.

Lemma handle_errors_returned f req w resp w' :
  f req w = (inr resp, w') ->
  fst (handle_errors f req w) = inr resp /\
  same_but_logs w' (snd (handle_errors f req w)).
Proof.
  intros H. rewrite (handle_errors_returns f req w resp w' H). by split.
Qed.

Lemma body_rejection_cases j resp :
  body_rejection j = Some resp ->
  (exists e, j = inl e /\ resp = error_body e) \/
  (exists data, j = inr data /\ truthy data = false /\ resp = no_json) \/
  (exists data, j = inr data /\ truthy data = true /\
     dict_get data = (fun _ _ => raise (AttributeError "object has no attribute 'get'")) /\
     resp = error_body (AttributeError "object has no attribute 'get'")).
Proof.
  unfold body_rejection. destruct j as [e|data].
  - intros [= <-]. left. by exists e.
  - destruct data as [|b|n|s|l|[|kv d]]; try discriminate;
      (destruct (truthy _) eqn:Ht; intros [= <-];
       [ right; right; eexists; by repeat split
       | right; left; eexists; by repeat split ]).
Qed.

Lemma json_view_start cfg env r req w :
  reads_json r = true ->
  initialized (gradio_client w) = true ->
  match json req with
  | inl e => view cfg env r req w = (inl e, w)
  | inr data =>
      if truthy data then
        dict_get data =
          (fun _ _ => raise (AttributeError "object has no attribute 'get'")) ->
        view cfg env r req w =
          (inl (AttributeError "object has no attribute 'get'"), w)
      else view cfg env r req w = (inr no_json, w)
  end.
Proof.
  intros Hr Hi.
  destruct r; try discriminate; cbn [view];
    unfold generate_response, compare_endpoints, batch_generate,
      get_user_input;
    run (get_gradio_client_run w); rewrite Hi; cbn [negb];
    (destruct (json req) as [e|data]; [by erewrite bind_inl|]);
    run (eq_refl : lift (inr data) w = (inr data, w));
    (destruct (truthy data); cbn [negb]; [|reflexivity]);
    intros ->; reflexivity.
Qed.

(** X9. A request body that is not a non-empty JSON object, sent to POST
    /generate, /compare or /batch with the client initialised: when
    [get_json] raises, the response is the one of the error wrapper for
    that exception; a false body ([null], an empty object or list, [0],
    the empty string) gets the 400 [No JSON data provided]; a true body
    without [get] (a list, a string, a number) gets the 500 of the error
    wrapper.  In each case no connection attempt and no remote call is
    made. *)
Theorem bad_body_is_refused_before_backend cfg env r req w resp :
  reads_json r = true ->
  initialized (gradio_client w) = true ->
  body_rejection (json req) = Some resp ->
  fst (handle_errors (view cfg env r) req w) = inr resp /\
  same_but_logs w (snd (handle_errors (view cfg env r) req w)).
Proof.
  intros Hr Hi Hb. pose proof (json_view_start cfg env r req w Hr Hi) as Hv.
  destruct (body_rejection_cases _ _ Hb)
    as [(e & Hj & ->) | [(data & Hj & Ht & ->) | (data & Hj & Ht & Hg & ->)]];
    rewrite Hj in Hv; try rewrite Ht in Hv.
  - by apply handle_errors_raised.
  - by apply handle_errors_returned.
  - apply handle_errors_raised. by apply Hv.
Qed.

(** X10. POST /generate and POST /compare with a JSON object that gives
    neither a true [user_input] nor a true [question] (both missing,
    empty, [null], [0], ...) answer the 400 [user_input or question is
    required] and leave the world as it was: nothing is logged and the
    backend is not contacted. *)
Theorem missing_input_is_a_400 cfg env r hs ar d w :
  r = Generate \/ r = Compare ->
  initialized (gradio_client w) = true ->
  truthy (VDict d) = true ->
  truthy (py_or (given d "user_input" VNone) (given d "question" VNone)) = false ->
  view cfg env r (MkRequest hs ar (inr (VDict d))) w = (inr input_required, w).
Proof.
  intros Hr Hi Hd Hui.
  destruct Hr as [-> | ->]; cbn [view];
    unfold generate_response, compare_endpoints;
    run (get_gradio_client_run w); rewrite Hi; cbn [negb json];
    run (eq_refl : lift (inr (VDict d)) w = (inr (VDict d), w));
    rewrite Hd; cbn [negb];
    run (get_user_input_run d w); rewrite Hui; reflexivity.
Qed.

(** X11. POST /generate with a [max_length], [temperature] or [top_p]
    that is not a number (a string, [null], a list, an object) is not
    given the default: the range comparison raises [TypeError], the error
    wrapper answers the 500 [Internal server error], and the backend is
    not contacted. *)
Theorem generate_refuses_what_is_not_a_number cfg env hs ar d w :
  let ui := py_or (given d "user_input" VNone) (given d "question" VNone) in
  let ml := given d "max_length" (VNum (DEFAULT_MAX_LENGTH cfg)) in
  let t := given d "temperature" (VNum (DEFAULT_TEMPERATURE cfg)) in
  let tp := given d "top_p" (VNum (DEFAULT_TOP_P cfg)) in
  let req := MkRequest hs ar (inr (VDict d)) in
  initialized (gradio_client w) = true ->
  truthy ui = true ->
  num_of ml = None \/ num_of t = None \/ num_of tp = None ->
  fst (handle_errors (generate_response cfg env) req w) =
    inr (error_body (TypeError "'<=' not supported between instances")) /\
  status_code (error_body (TypeError "'<=' not supported between instances")) = 500 /\
  same_but_logs w (snd (handle_errors (generate_response cfg env) req w)).
Proof.
  intros ui ml t tp req Hi Hui Hn.
  assert (truthy (VDict d) = true) as Hd.
  { destruct d; [|done]. by vm_compute in Hui. }
  assert (generate_response cfg env req w =
          (inl (TypeError "'<=' not supported between instances"), w)) as E.
  { unfold generate_response.
    run (get_gradio_client_run w). rewrite Hi. cbn [negb json req].
    run (eq_refl : lift (inr (VDict d)) w = (inr (VDict d), w)).
    rewrite Hd. cbn [negb].
    run (get_user_input_run d w). fold ui. rewrite Hui. cbn [negb].
    do 4 run dict_get_run. fold ml t tp.
    unfold validate at 1.
    destruct (num_of ml) as [n1|]; [|by erewrite bind_inl].
    run (eq_refl : ret (if negb (num_le (Fin 1) n1 && num_le n1 (Fin 2048))
                        then VNum (DEFAULT_MAX_LENGTH cfg) else ml) w = (_, w)).
    unfold validate at 1.
    destruct (num_of t) as [n2|]; [|by erewrite bind_inl].
    run (eq_refl : ret (if negb (num_le (Fin 0) n2 && num_le n2 (Fin 2))
                        then VNum (DEFAULT_TEMPERATURE cfg) else t) w = (_, w)).
    unfold validate at 1.
    destruct (num_of tp) as [n3|]; [|by erewrite bind_inl].
    by destruct Hn as [?|[?|?]]. }
  split; [by apply (handle_errors_raised _ _ _ _ _ E)|].
  split; [reflexivity|]. by apply (handle_errors_raised _ _ _ _ _ E).
Qed.

(** ** GET /ask *)

(** X12. GET /ask without a non-empty [question] or [q] argument answers
    the 400 [question parameter is required] and leaves the world as it
    was. *)
Theorem ask_without_question_is_a_400 cfg env req w :
  initialized (gradio_client w) = true ->
  str_truthy (get_question req) = false ->
  ask_question cfg env req w = (inr question_required, w).
Proof.
  intros Hi Hq. unfold ask_question.
  run (get_gradio_client_run w). rewrite Hi. cbn [negb]. by rewrite Hq.
Qed.

Lemma float_arg_run env req k default w :
  float_arg env req k default w =
  match float_of_arg env req k default with
  | Some n => (inr (VNum n), w)
  | None => (inl (ValueError "could not convert string to float"), w)
  end.
Proof.
  unfold float_arg, float_of_arg. destruct (args req !! k) as [s|]; [|done].
  by destruct (env_float env s).
Qed.

(** X13. GET /ask with a [max_length], [temperature] or [top_p] argument
    that [float()] does not parse is refused: [ValueError] reaches the
    error wrapper, which answers the 500 [Internal server error], and the
    backend is not contacted. *)
Theorem ask_refuses_what_float_rejects cfg env req w :
  initialized (gradio_client w) = true ->
  str_truthy (get_question req) = true ->
  float_of_arg env req "max_length" (DEFAULT_MAX_LENGTH cfg) = None \/
  float_of_arg env req "temperature" (DEFAULT_TEMPERATURE cfg) = None \/
  float_of_arg env req "top_p" (DEFAULT_TOP_P cfg) = None ->
  fst (handle_errors (ask_question cfg env) req w) =
    inr (error_body (ValueError "could not convert string to float")) /\
  status_code (error_body (ValueError "could not convert string to float")) = 500 /\
  same_but_logs w (snd (handle_errors (ask_question cfg env) req w)).
Proof.
  intros Hi Hq Hn.
  assert (ask_question cfg env req w =
          (inl (ValueError "could not convert string to float"), w)) as E.
  { unfold ask_question.
    run (get_gradio_client_run w). rewrite Hi. cbn [negb]. rewrite Hq. cbn [negb].
    unfold bind at 1. rewrite float_arg_run.
    destruct (float_of_arg env req "max_length" _) as [n1|]; [|done].
    unfold bind at 1. rewrite float_arg_run.
    destruct (float_of_arg env req "temperature" _) as [n2|]; [|done].
    unfold bind at 1. rewrite float_arg_run.
    destruct (float_of_arg env req "top_p" _) as [n3|]; [|done].
    by destruct Hn as [?|[?|?]]. }
  split; [by apply (handle_errors_raised _ _ _ _ _ E)|].
  split; [reflexivity|]. by apply (handle_errors_raised _ _ _ _ _ E).
Qed.

(** X14. GET /ask with a question and arguments that [float()] parses
    calls the session manager with the question, the three numbers as
    parsed (or the defaults where absent) and the endpoint
    [/generate_response]: no number is compared with a range, and the
    response carries the question and the answer but not the
    parameters. *)
Theorem ask_passes_parameters_unchecked cfg env req w q n1 n2 n3 :
  initialized (gradio_client w) = true ->
  get_question req = Some q -> q <> "" ->
  float_of_arg env req "max_length" (DEFAULT_MAX_LENGTH cfg) = Some n1 ->
  float_of_arg env req "temperature" (DEFAULT_TEMPERATURE cfg) = Some n2 ->
  float_of_arg env req "top_p" (DEFAULT_TOP_P cfg) = Some n3 ->
  ask_question cfg env req w =
    (let* response :=
       GradioAPIClient.generate_response env (VStr q) (VNum n1) (VNum n2)
         (VNum n3) (VStr "/generate_response") in
     let* ts := now env in
     ret (jsonify [("status", VStr "success");
                   ("question", VStr q);
                   ("response", response);
                   ("timestamp", VStr ts)] 200)) w.
Proof.
  intros Hi Hq Hne H1 H2 H3. unfold ask_question.
  run (get_gradio_client_run w). rewrite Hi. cbn [negb]. rewrite Hq.
  assert (str_truthy (Some q) = true) as ->.
  { cbn. by destruct (String.eqb_spec q ""). }
  cbn [negb opt_value].
  unfold bind at 1. rewrite float_arg_run, H1.
  unfold bind at 1. rewrite float_arg_run, H2.
  unfold bind at 1. rewrite float_arg_run, H3.
  reflexivity.
Qed.

(** ** POST /batch *)

(** X15. POST /batch with a JSON object whose [questions] is not a list
    (a string, a number, an object, [null]) answers the 400 [questions
    array is required] and leaves the world as it was. *)
Theorem questions_must_be_a_list cfg env hs ar d w :
  initialized (gradio_client w) = true ->
  truthy (VDict d) = true ->
  is_list (given d "questions" (VList [])) = false ->
  batch_generate cfg env (MkRequest hs ar (inr (VDict d))) w =
    (inr questions_required, w).
Proof.
  intros Hi Hd Hl. unfold batch_generate.
  run (get_gradio_client_run w). rewrite Hi. cbn [negb json].
  run (eq_refl : lift (inr (VDict d)) w = (inr (VDict d), w)).
  rewrite Hd. cbn [negb]. run dict_get_run. rewrite Hl.
  by rewrite orb_true_r.
Qed.

(** ** GET /sample *)

Lemma get_sample_data_run env req self evs lg :
  let w := MkWorld (Some self) evs lg in
  get_sample_data env req w =
  match GradioAPIClient.get_lambda_data env w with
  | (inl e, w1) => (inl e, w1)
  | (inr v, w1) =>
      match unpack2 v with
      | inl e => (inl e, w1)
      | inr (question, response) =>
          (inr (jsonify [("status", VStr "success");
                         ("sample_question", question);
                         ("sample_response", response);
                         ("timestamp", VStr (env_now env (events w1)))] 200),
           w1)
      end
  end.
Proof.
  intros w. unfold get_sample_data.
  run (get_gradio_client_run w). cbn [gradio_client w initialized negb].
  unfold bind at 1.
  destruct (GradioAPIClient.get_lambda_data env w) as [[e|v] w1]; [done|].
  unfold bind at 1, lift.
  by destruct (unpack2 v) as [e|[question response]].
Qed.

(** X16. GET /sample, with the client initialised, makes one call of
    [get_lambda_data] and nothing else with the backend.  When that call
    raises, the error wrapper answers for its exception (503 for a
    [ConnectionError], 500 otherwise); when it returns a value that does
    not unpack into two, the answer is the 500 of the unpacking error;
    when it returns a pair, the answer is the 200 with the pair as
    [sample_question] and [sample_response]. *)
Theorem sample_relays_one_call env self evs lg req :
  let w := MkWorld (Some self) evs lg in
  let g := GradioAPIClient.get_lambda_data env w in
  let run := handle_errors (get_sample_data env) req w in
  events (snd run) = events (snd g) /\
  fst run =
    match fst g with
    | inl e => inr (error_body e)
    | inr v =>
        match unpack2 v with
        | inl e => inr (error_body e)
        | inr (question, response) =>
            inr (jsonify [("status", VStr "success");
                          ("sample_question", question);
                          ("sample_response", response);
                          ("timestamp", VStr (env_now env (events (snd g))))]
                   200)
        end
    end.
Proof.
  intros w g run. pose proof (get_sample_data_run env req self evs lg) as E.
  cbv zeta in E. fold w g in E. unfold run. clear run.
  destruct g as [[e|v] w1]; cbn [fst snd].
  - destruct (handle_errors_raised _ _ _ _ _ E) as [H1 [_ H2]]. by split.
  - destruct (unpack2 v) as [e|[question response]].
    + destruct (handle_errors_raised _ _ _ _ _ E) as [H1 [_ H2]]. by split.
    + destruct (handle_errors_returned _ _ _ _ _ E) as [H1 [_ H2]]. by split.
Qed.

(** ** The key check: header before query *)

(** X17. With an API key configured, a request that carries a non-empty
    [X-API-Key] header is judged on the header alone: when the header
    differs from the key the request gets the 401, even if its [api_key]
    query argument is the right key. *)
Theorem header_key_hides_query_key cfg env r req w k h :
  API_KEY cfg = Some k ->
  str_truthy (API_KEY cfg) = true ->
  headers req !! "X-API-Key" = Some h ->
  h <> "" -> h <> k ->
  args req !! "api_key" = Some k ->
  protected cfg env r req w = (inr unauthorized, w).
Proof.
  intros Hk Ht Hh Hne Hhk _. unfold protected.
  apply (require_api_key_rejects cfg _ req w k Hk Ht).
  unfold provided_key. rewrite Hh. cbn.
  destruct (String.eqb_spec h ""); [done|]. cbn. congruence.
Qed.

(** ** GET /health *)

(** X18. GET /health never changes the client object and never issues a
    remote call.  With a handle in the session it makes exactly one
    connection attempt, whose handle it does not keep; without a handle,
    or without a client object, it contacts nothing and reports
    unhealthy. *)
Theorem health_check_leaves_the_session cfg env req w :
  let w' := snd (health_check cfg env req w) in
  gradio_client w' = gradio_client w /\
  events w' =
    events w ++
    match gradio_client w with
    | Some (MkClient url (Some _) _) =>
        [EvClient url (env_Client env (events w) url)]
    | _ => []
    end /\
  nb_predicts (events w') = nb_predicts (events w).
Proof.
  destruct (health_check_world cfg env req w) as [Hg He].
  split; [exact Hg|]. split; [exact He|]. cbn. rewrite He.
  unfold nb_predicts. rewrite List.filter_app, length_app.
  destruct (gradio_client w) as [[url [h|] lc]|]; cbn; lia.
Qed.

(** ** An input that has no slice *)

(** X19. A question that is neither a string nor a list (a number, a
    boolean, an object) makes the log line of [generate_response] raise
    before the first remote call.  From a session that holds a handle,
    the call then reconnects at once and issues the remote call only on
    the new connection; if the reconnection fails the [TypeError] of the
    log line is raised and the backend never saw the question. *)
Theorem unsliceable_input_forces_a_reconnect env url h lc evs lg ui ml t tp ep e :
  slice50 ui = inl e ->
  let w := MkWorld (Some (MkClient url (Some h) lc)) evs lg in
  let kw := GradioAPIClient.generate_kwargs ui ml t tp ep in
  let run := GradioAPIClient.generate_response env ui ml t tp ep w in
  match env_Client env evs url with
  | inl e' =>
      fst run = inl e /\ events (snd run) = evs ++ [EvClient url (inl e')]
  | inr h' =>
      let r := env_predict env (evs ++ [EvClient url (inr h')]) h' kw in
      fst run = r /\
      events (snd run) = evs ++ [EvClient url (inr h'); EvPredict h' kw r]
  end.
Proof.
  intros Hs w kw run. unfold run. cbn. unfold_client. cbn. rewrite Hs. cbn.
  destruct (env_Client env evs url) as [e'|h']; cbn.
  - done.
  - unfold kw. destruct (env_predict env _ h' _); cbn;
      rewrite <- ?app_assoc; done.
Qed.

(** ** What a batch costs the backend *)

Lemma nb_predicts_app a b : nb_predicts (a ++ b) = nb_predicts a + nb_predicts b.
Proof. unfold nb_predicts. by rewrite List.filter_app, length_app. Qed.

Lemma nb_clients_app a b : nb_clients (a ++ b) = nb_clients a + nb_clients b.
Proof. unfold nb_clients. by rewrite List.filter_app, length_app. Qed.

Lemma nb_sleeps_app a b : nb_sleeps (a ++ b) = nb_sleeps a + nb_sleeps b.
Proof. unfold nb_sleeps. by rewrite List.filter_app, length_app. Qed.

Lemma invoke_outcome_cost url ui kw oh new r :
  invoke_outcome url ui kw oh new r ->
  nb_predicts new <= 2 /\ nb_clients new <= 2 /\ nb_sleeps new = 0.
Proof.
  assert (forall h new r, attempt_outcome url ui kw h new r ->
            nb_predicts new <= 2 /\ nb_clients new <= 1 /\ nb_sleeps new = 0)
    as Ha.
  { intros h new0 r0 [v | first e e' [e1|e1 Hs] | first e h' r' [e1|e1 Hs]];
      cbn; lia. }
  intros [e | h new1 r1 Ho | h new1 r1 Ho].
  - cbn. lia.
  - apply Ha in Ho. cbn. unfold nb_predicts, nb_clients, nb_sleeps in *. lia.
  - apply Ha in Ho. lia.
Qed.

Lemma batch_loop_cost env url ml t tp delay n qs :
  forall i results w,
  same_session url w ->
  exists tr,
    events (snd (batch_loop env ml t tp delay n i qs results w)) =
      events w ++ tr /\
    nb_predicts tr <= 2 * length qs /\
    nb_clients tr <= 2 * length qs /\
    nb_sleeps tr <= (n - 1) - i.
Proof.
  induction qs as [|q qs IH]; intros i results w Hs; cbn [batch_loop].
  - exists []. rewrite app_nil_r. cbn. repeat split; lia.
  - destruct (batch_item_run env ml t tp delay n i q results url w Hs)
      as (items & pause & w1 & E1 & Hs1 & Hev1 & Hit).
    destruct (generate_response_events env url w q ml t tp
                (VStr "/generate_response") Hs) as (oh & new & Hev & Ho).
    apply invoke_outcome_cost in Ho as (Hp & Hc & Hz).
    run E1.
    destruct (IH (S i) (results ++ items) w1 Hs1) as (tr & Hev2 & Hp2 & Hc2 & Hz2).
    exists (new ++ pause ++ tr).
    split; [by rewrite Hev2, Hev1, Hev, <- !app_assoc|].
    assert (nb_predicts pause = 0 /\ nb_clients pause = 0 /\
            nb_sleeps pause <= 1 /\ (nb_sleeps pause = 1 -> i < n - 1))
      as (Pp & Pc & Pz & Pi).
    { destruct (GradioAPIClient.generate_response env q ml t tp
                  (VStr "/generate_response") w).1 as [e|v].
      - destruct Hit as [_ ->]. cbn. repeat split; lia.
      - destruct (i <? n - 1)%nat eqn:Hlt.
        + apply Nat.ltb_lt in Hlt.
          destruct (sleep_accepts env delay); destruct Hit as [_ ->]; cbn;
            repeat split; lia.
        + destruct Hit as [_ ->]. cbn. repeat split; lia. }
    rewrite !nb_predicts_app, !nb_clients_app, !nb_sleeps_app. cbn [length].
    repeat split; lia.
Qed.

(** X20. POST /batch with 1 to 10 questions, whatever the delay and
    whatever the backend does: the request costs the backend at most two
    remote calls and two connection attempts for each question, and the
    worker sleeps at most once between two consecutive questions, so at
    most one time less than there are questions. *)
Theorem batch_cost_is_bounded cfg env req d qs gc evs lg :
  json req = inr (VDict d) ->
  given d "questions" (VList []) = VList qs ->
  1 <= length qs <= 10 ->
  exists tr,
    events (snd (batch_generate cfg env req (MkWorld (Some gc) evs lg))) =
      evs ++ tr /\
    nb_predicts tr <= 2 * length qs /\
    nb_clients tr <= 2 * length qs /\
    nb_sleeps tr <= length qs - 1.
Proof.
  intros Hj Hq Hlen.
  destruct (batch_generate_accepts cfg env req d qs gc evs lg Hj Hq Hlen)
    as (items & w' & El & _ & E).
  destruct (batch_loop_cost env (api_url gc)
              (given d "max_length" (VNum (DEFAULT_MAX_LENGTH cfg)))
              (given d "temperature" (VNum (DEFAULT_TEMPERATURE cfg)))
              (given d "top_p" (VNum (DEFAULT_TOP_P cfg)))
              (given d "delay" (VNum (Fin 1)))
              (length qs) qs 0 [] (MkWorld (Some gc) evs lg))
    as (tr & Hev & Hp & Hc & Hz); [by exists gc|].
  rewrite El in Hev. cbn [snd events] in Hev.
  exists tr. rewrite E. cbn [snd]. rewrite Hev.
  repeat split; [done|done|lia].
Qed.

Lemma batch_cost_is_bounded_witness :
  exists tr,
    events (snd (batch_generate cfg_open env_picky batch_of_three w_connected)) =
      [] ++ tr /\
    nb_predicts tr <= 2 * length three_questions /\
    nb_clients tr <= 2 * length three_questions /\
    nb_sleeps tr <= length three_questions - 1.
Proof.
  apply (batch_cost_is_bounded cfg_open env_picky batch_of_three
           [("questions", VList three_questions)] three_questions
           (sample_client (Some 0)) [] []).
  - reflexivity.
  - reflexivity.
  - cbn. lia.
Defined.

(** ** A batch while the backend is down *)

Lemma batch_loop_unavailable env url lc ml t tp delay n qs :
  (forall tr, exists e, env_Client env tr url = inl e) ->
  forall i results evs lg,
  exists tr lg',
    batch_loop env ml t tp delay n i qs results
      (MkWorld (Some (MkClient url None lc)) evs lg) =
      (inr (results ++ unavailable_items i qs),
       MkWorld (Some (MkClient url None lc)) (evs ++ tr) lg') /\
    Forall (failed_connect url) tr /\
    length tr = length qs.
Proof.
  intros Hdown. induction qs as [|q qs IH]; intros i results evs lg;
    cbn [batch_loop unavailable_items].
  - exists [], lg. rewrite !app_nil_r. by repeat split.
  - destruct (Hdown evs) as [e He].
    assert (batch_item env ml t tp delay n i q results
              (MkWorld (Some (MkClient url None lc)) evs lg) =
            (inr (results ++
                  [item_error i q (ConnectionError "Unable to connect to Gradio API")]),
             MkWorld (Some (MkClient url None lc)) (evs ++ [EvClient url (inl e)])
               ((lg ++ [Log ERROR "Failed to connect to API: {}" [VStr (exn_msg e)]])
                ++ [Log ERROR "Error processing question {}: {}"
                      [VInt (Z.of_nat (i + 1));
                       VStr "Unable to connect to Gradio API"]]))) as E1.
    { unfold batch_item, try_except. unfold bind at 1.
      rewrite generate_response_lazy, He. reflexivity. }
    run E1.
    destruct (IH (S i) (results ++ [item_error i q
                 (ConnectionError "Unable to connect to Gradio API")])
                (evs ++ [EvClient url (inl e)])
                ((lg ++ [Log ERROR "Failed to connect to API: {}" [VStr (exn_msg e)]])
                 ++ [Log ERROR "Error processing question {}: {}"
                       [VInt (Z.of_nat (i + 1));
                        VStr "Unable to connect to Gradio API"]]))
      as (tr & lg' & E2 & Hf & Hl).
    exists (EvClient url (inl e) :: tr), lg'.
    rewrite E2, <- !app_assoc. cbn. split; [done|].
    split; [|by rewrite Hl]. constructor; [by exists e|done].
Qed.

(** X21. POST /batch with 1 to 10 questions while no connection can be
    made, from a session without a handle: the response is still the 200
    [completed] one; every question gets an error item, in order, with
    the message [Unable to connect to Gradio API]; and the request makes
    exactly one failed connection attempt for each question, no remote
    call and no pause. *)
Theorem batch_against_a_backend_down cfg env req d qs url lc evs lg :
  (forall tr, exists e, env_Client env tr url = inl e) ->
  json req = inr (VDict d) ->
  given d "questions" (VList []) = VList qs ->
  1 <= length qs <= 10 ->
  exists resp w' tr,
    batch_generate cfg env req (MkWorld (Some (MkClient url None lc)) evs lg) =
      (inr resp, w') /\
    status_code resp = 200 /\
    assoc "results" (body resp) = Some (VList (unavailable_items 0 qs)) /\
    events w' = evs ++ tr /\
    Forall (failed_connect url) tr /\
    length tr = length qs.
Proof.
  intros Hdown Hj Hq Hlen.
  destruct (batch_generate_accepts cfg env req d qs (MkClient url None lc)
              evs lg Hj Hq Hlen) as (items & w' & El & _ & E).
  destruct (batch_loop_unavailable env url lc
              (given d "max_length" (VNum (DEFAULT_MAX_LENGTH cfg)))
              (given d "temperature" (VNum (DEFAULT_TEMPERATURE cfg)))
              (given d "top_p" (VNum (DEFAULT_TOP_P cfg)))
              (given d "delay" (VNum (Fin 1)))
              (length qs) qs Hdown 0 [] evs lg)
    as (tr & lg' & E' & Hf & Hl).
  rewrite El in E'. cbn [app] in E'. injection E' as -> ->.
  eexists _, _, tr. split; [exact E|]. by repeat split.
Qed.

Lemma batch_against_a_backend_down_witness :
  exists resp w' tr,
    batch_generate cfg_open env_down batch_of_three w_disconnected =
      (inr resp, w') /\
    status_code resp = 200 /\
    assoc "results" (body resp) =
      Some (VList (unavailable_items 0 three_questions)) /\
    events w' = [] ++ tr /\
    Forall (failed_connect sample_url) tr /\
    length tr = length three_questions.
Proof.
  apply (batch_against_a_backend_down cfg_open env_down batch_of_three
           [("questions", VList three_questions)] three_questions
           sample_url None [] []).
  - intros tr. by exists backend_error.
  - reflexivity.
  - reflexivity.
  - cbn. lia.
Defined.

(** ** Sample runs *)

Lemma reachable_worlds_have_a_session_witness :
  session_ok (API_URL cfg_open)
    (snd (protected cfg_open env_up Ask req_no_key
            (snd (startup cfg_open env_up w_blank)))) /\
  initialized
    (gradio_client
       (snd (protected cfg_open env_up Ask req_no_key
               (snd (startup cfg_open env_up w_blank))))) = true.
Proof.
  apply (reachable_worlds_have_a_session cfg_open env_up).
  apply reach_protected, reach_startup.
Defined.

Lemma bad_body_is_refused_before_backend_witness :
  fst (handle_errors (view cfg_open env_up Generate) req_no_key w_connected) =
    inr no_json /\
  same_but_logs w_connected
    (snd (handle_errors (view cfg_open env_up Generate) req_no_key w_connected)).
Proof.
  apply (bad_body_is_refused_before_backend cfg_open env_up Generate
           req_no_key w_connected no_json); reflexivity.
Defined.

Lemma missing_input_is_a_400_witness :
  view cfg_open env_up Compare
    (MkRequest ∅ ∅ (inr (VDict [("user_input", VStr "")]))) w_connected =
    (inr input_required, w_connected).
Proof.
  apply (missing_input_is_a_400 cfg_open env_up Compare ∅ ∅
           [("user_input", VStr "")] w_connected).
  - right. reflexivity.
  - reflexivity.
  - reflexivity.
  - reflexivity.
Defined.

Lemma generate_refuses_what_is_not_a_number_witness :
  fst (handle_errors (generate_response cfg_open env_up)
         (MkRequest ∅ ∅ (inr (VDict body_not_a_number))) w_connected) =
    inr (error_body (TypeError "'<=' not supported between instances")) /\
  status_code (error_body (TypeError "'<=' not supported between instances")) = 500 /\
  same_but_logs w_connected
    (snd (handle_errors (generate_response cfg_open env_up)
            (MkRequest ∅ ∅ (inr (VDict body_not_a_number))) w_connected)).
Proof.
  apply (generate_refuses_what_is_not_a_number cfg_open env_up ∅ ∅
           body_not_a_number w_connected).
  - reflexivity.
  - reflexivity.
  - left. reflexivity.
Defined.

Lemma ask_without_question_is_a_400_witness :
  ask_question cfg_open env_up (http_get [("q", "")]) w_connected =
    (inr question_required, w_connected).
Proof.
  apply (ask_without_question_is_a_400 cfg_open env_up
           (http_get [("q", "")]) w_connected); reflexivity.
Defined.

Lemma ask_refuses_what_float_rejects_witness :
  fst (handle_errors (ask_question cfg_open env_up) ask_not_a_number w_connected) =
    inr (error_body (ValueError "could not convert string to float")) /\
  status_code (error_body (ValueError "could not convert string to float")) = 500 /\
  same_but_logs w_connected
    (snd (handle_errors (ask_question cfg_open env_up) ask_not_a_number
            w_connected)).
Proof.
  apply (ask_refuses_what_float_rejects cfg_open env_up ask_not_a_number
           w_connected).
  - reflexivity.
  - reflexivity.
  - left. reflexivity.
Defined.

Lemma ask_passes_parameters_unchecked_witness :
  ask_question cfg_open env_up ask_3000 w_connected =
    (let* response :=
       GradioAPIClient.generate_response env_up (VStr "hi") (VNum (Fin 3000))
         (VNum (Fin (7 # 10))) (VNum (Fin (9 # 10)))
         (VStr "/generate_response") in
     let* ts := now env_up in
     ret (jsonify [("status", VStr "success");
                   ("question", VStr "hi");
                   ("response", response);
                   ("timestamp", VStr ts)] 200)) w_connected.
Proof.
  apply (ask_passes_parameters_unchecked cfg_open env_up ask_3000 w_connected
           "hi" (Fin 3000) (Fin (7 # 10)) (Fin (9 # 10))).
  - reflexivity.
  - reflexivity.
  - discriminate.
  - reflexivity.
  - reflexivity.
  - reflexivity.
Defined.

Lemma questions_must_be_a_list_witness :
  batch_generate cfg_open env_up
    (MkRequest ∅ ∅ (inr (VDict [("questions", VStr "why?")]))) w_connected =
    (inr questions_required, w_connected).
Proof.
  apply (questions_must_be_a_list cfg_open env_up ∅ ∅
           [("questions", VStr "why?")] w_connected); reflexivity.
Defined.

Lemma header_key_hides_query_key_witness :
  protected cfg_key env_up Sample req_header_wins w_connected =
    (inr unauthorized, w_connected).
Proof.
  apply (header_key_hides_query_key cfg_key env_up Sample req_header_wins
           w_connected "s3cret" "guess").
  - reflexivity.
  - reflexivity.
  - reflexivity.
  - discriminate.
  - discriminate.
  - reflexivity.
Defined.

Lemma unsliceable_input_forces_a_reconnect_witness :
  fst (GradioAPIClient.generate_response env_up (VInt 5) (VInt 512) (VInt 1)
         (VInt 1) (VStr "/generate_response") w_connected) =
    inr (VStr "answer") /\
  events (snd (GradioAPIClient.generate_response env_up (VInt 5) (VInt 512)
                 (VInt 1) (VInt 1) (VStr "/generate_response") w_connected)) =
    [] ++ [EvClient sample_url (inr 0);
           EvPredict 0
             (GradioAPIClient.generate_kwargs (VInt 5) (VInt 512) (VInt 1)
                (VInt 1) (VStr "/generate_response"))
             (inr (VStr "answer"))].
Proof.
  apply (unsliceable_input_forces_a_reconnect env_up sample_url 0
           (Some "2023-12-31T23:59:59") [] [] (VInt 5) (VInt 512) (VInt 1)
           (VInt 1) (VStr "/generate_response")
           (TypeError "object is not subscriptable")).
  reflexivity.
Defined.

(** ** Failures of the session manager seen from the routes *)

Lemma compare_endpoints_run cfg env hs ar d w :
  let ui := py_or (given d "user_input" VNone) (given d "question" VNone) in
  let ml := given d "max_length" (VNum (DEFAULT_MAX_LENGTH cfg)) in
  let t := given d "temperature" (VNum (DEFAULT_TEMPERATURE cfg)) in
  let tp := given d "top_p" (VNum (DEFAULT_TOP_P cfg)) in
  initialized (gradio_client w) = true ->
  truthy ui = true ->
  compare_endpoints cfg env (MkRequest hs ar (inr (VDict d))) w =
    (let* response1 :=
       GradioAPIClient.generate_response env ui ml t tp
         (VStr "/generate_response") in
     emit (EvSleep (VNum (Fin (1 # 2))));;
     let* response2 :=
       GradioAPIClient.generate_response env ui ml t tp
         (VStr "/generate_response_1") in
     let* ts := now env in
     ret (jsonify [("status", VStr "success");
                   ("user_input", ui);
                   ("responses",
                     VDict [("endpoint_1", response1);
                            ("endpoint_2", response2)]);
                   ("parameters",
                     VDict [("max_length", ml); ("temperature", t);
                            ("top_p", tp)]);
                   ("timestamp", VStr ts)] 200)) w.
Proof.
  intros ui ml t tp Hi Hui.
  assert (truthy (VDict d) = true) as Hd.
  { destruct d; [|done]. by vm_compute in Hui. }
  unfold compare_endpoints.
  run (get_gradio_client_run w). rewrite Hi. cbn [negb json].
  run (eq_refl : lift (inr (VDict d)) w = (inr (VDict d), w)).
  rewrite Hd. cbn [negb].
  run (get_user_input_run d w). fold ui. rewrite Hui. cbn [negb].
  do 3 run dict_get_run. reflexivity.
Qed.

(** X22. POST /compare is all or nothing: when the call for the first
    endpoint raises, neither the half-second sleep nor the call for the
    second endpoint takes place, and the error wrapper answers for that
    exception; no partial result is returned. *)
Theorem compare_stops_at_first_failure cfg env hs ar d w e :
  let ui := py_or (given d "user_input" VNone) (given d "question" VNone) in
  let ml := given d "max_length" (VNum (DEFAULT_MAX_LENGTH cfg)) in
  let t := given d "temperature" (VNum (DEFAULT_TEMPERATURE cfg)) in
  let tp := given d "top_p" (VNum (DEFAULT_TOP_P cfg)) in
  let req := MkRequest hs ar (inr (VDict d)) in
  let g := GradioAPIClient.generate_response env ui ml t tp
             (VStr "/generate_response") w in
  initialized (gradio_client w) = true ->
  truthy ui = true ->
  fst g = inl e ->
  fst (handle_errors (compare_endpoints cfg env) req w) = inr (error_body e) /\
  events (snd (handle_errors (compare_endpoints cfg env) req w)) =
    events (snd g).
Proof.
  intros ui ml t tp req g Hi Hui Hg.
  assert (compare_endpoints cfg env req w = (inl e, snd g)) as E.
  { unfold req. rewrite (compare_endpoints_run cfg env hs ar d w Hi Hui).
    fold ui ml t tp. unfold bind at 1. fold g.
    destruct g as [r w1]. cbn in Hg. by subst r. }
  destruct (handle_errors_raised _ _ _ _ _ E) as [H1 [_ H2]]. by split.
Qed.

Lemma compare_stops_at_first_failure_witness :
  fst (handle_errors (compare_endpoints cfg_open env_down) compare_3000
         w_disconnected) =
    inr (error_body (ConnectionError "Unable to connect to Gradio API")) /\
  events (snd (handle_errors (compare_endpoints cfg_open env_down) compare_3000
                 w_disconnected)) =
    events (snd (GradioAPIClient.generate_response env_down (VStr "hi")
                   (VInt 3000) (VNum (Fin (7 # 10))) (VNum (Fin (9 # 10)))
                   (VStr "/generate_response") w_disconnected)).
Proof.
  apply (compare_stops_at_first_failure cfg_open env_down ∅ ∅
           [("user_input", VStr "hi"); ("max_length", VInt 3000)]
           w_disconnected
           (ConnectionError "Unable to connect to Gradio API"));
    reflexivity.
Defined.

Lemma generate_view_run cfg env hs ar d w n1 n2 n3 :
  let ui := py_or (given d "user_input" VNone) (given d "question" VNone) in
  let ml := given d "max_length" (VNum (DEFAULT_MAX_LENGTH cfg)) in
  let t := given d "temperature" (VNum (DEFAULT_TEMPERATURE cfg)) in
  let tp := given d "top_p" (VNum (DEFAULT_TOP_P cfg)) in
  let ep := given d "endpoint" (VStr "/generate_response") in
  initialized (gradio_client w) = true ->
  truthy ui = true ->
  num_of ml = Some n1 -> num_of t = Some n2 -> num_of tp = Some n3 ->
  exists ml' t' tp',
    generate_response cfg env (MkRequest hs ar (inr (VDict d))) w =
      (let* response := GradioAPIClient.generate_response env ui ml' t' tp' ep in
       let* ts := now env in
       ret (jsonify [("status", VStr "success");
                     ("user_input", ui);
                     ("response", response);
                     ("parameters",
                       VDict [("max_length", ml'); ("temperature", t');
                              ("top_p", tp'); ("endpoint", ep)]);
                     ("timestamp", VStr ts)] 200)) w.
Proof.
  intros ui ml t tp ep Hi Hui H1 H2 H3.
  destruct (validate_run 1 2048 (DEFAULT_MAX_LENGTH cfg) ml n1 w H1)
    as (ml' & E1 & _).
  destruct (validate_run 0 2 (DEFAULT_TEMPERATURE cfg) t n2 w H2)
    as (t' & E2 & _).
  destruct (validate_run 0 1 (DEFAULT_TOP_P cfg) tp n3 w H3)
    as (tp' & E3 & _).
  exists ml', t', tp'.
  assert (truthy (VDict d) = true) as Hd.
  { destruct d; [|done]. by vm_compute in Hui. }
  unfold generate_response.
  run (get_gradio_client_run w). rewrite Hi. cbn [negb json].
  run (eq_refl : lift (inr (VDict d)) w = (inr (VDict d), w)).
  rewrite Hd. cbn [negb].
  run (get_user_input_run d w). fold ui. rewrite Hui. cbn [negb].
  do 4 run dict_get_run. fold ml t tp ep.
  run E1. run E2. run E3. reflexivity.
Qed.

(** X23. POST /generate with a valid body, from a session without a
    handle, while the connection cannot be made: the request makes one
    connection attempt and no remote call, and the answer is the 503
    [connection_error] whose message is [Unable to connect to Gradio
    API]. *)
Theorem generate_is_503_when_unavailable cfg env hs ar d url lc evs lg n1 n2 n3 e :
  let w := MkWorld (Some (MkClient url None lc)) evs lg in
  let ui := py_or (given d "user_input" VNone) (given d "question" VNone) in
  let ml := given d "max_length" (VNum (DEFAULT_MAX_LENGTH cfg)) in
  let t := given d "temperature" (VNum (DEFAULT_TEMPERATURE cfg)) in
  let tp := given d "top_p" (VNum (DEFAULT_TOP_P cfg)) in
  let req := MkRequest hs ar (inr (VDict d)) in
  truthy ui = true ->
  num_of ml = Some n1 -> num_of t = Some n2 -> num_of tp = Some n3 ->
  env_Client env evs url = inl e ->
  exists resp,
    fst (handle_errors (generate_response cfg env) req w) = inr resp /\
    status_code resp = 503 /\
    assoc "status" (body resp) = Some (VStr "connection_error") /\
    assoc "message" (body resp) = Some (VStr "Unable to connect to Gradio API") /\
    events (snd (handle_errors (generate_response cfg env) req w)) =
      evs ++ [EvClient url (inl e)].
Proof.
  intros w ui ml t tp req Hui H1 H2 H3 Hc.
  destruct (generate_view_run cfg env hs ar d w n1 n2 n3 eq_refl Hui H1 H2 H3)
    as (ml' & t' & tp' & E).
  assert (generate_response cfg env req w =
          (inl (ConnectionError "Unable to connect to Gradio API"),
           MkWorld (Some (MkClient url None lc)) (evs ++ [EvClient url (inl e)])
             (lg ++ [Log ERROR "Failed to connect to API: {}" [VStr (exn_msg e)]])))
    as E'.
  { unfold req. rewrite E. unfold bind at 1.
    unfold w. rewrite generate_response_lazy, Hc. reflexivity. }
  destruct (handle_errors_raised _ _ _ _ _ E') as [R1 [_ R2]].
  eexists. split; [exact R1|]. by repeat split.
Qed.

Lemma generate_is_503_when_unavailable_witness :
  exists resp,
    fst (handle_errors (generate_response cfg_open env_down)
           (MkRequest ∅ ∅ (inr (VDict body_out_of_range))) w_disconnected) =
      inr resp /\
    status_code resp = 503 /\
    assoc "status" (body resp) = Some (VStr "connection_error") /\
    assoc "message" (body resp) = Some (VStr "Unable to connect to Gradio API") /\
    events (snd (handle_errors (generate_response cfg_open env_down)
                   (MkRequest ∅ ∅ (inr (VDict body_out_of_range)))
                   w_disconnected)) =
      [] ++ [EvClient sample_url (inl backend_error)].
Proof.
  apply (generate_is_503_when_unavailable cfg_open env_down ∅ ∅
           body_out_of_range sample_url None [] []
           (Fin 3000) (Fin (1 # 2)) NaN backend_error); reflexivity.
Defined.
